(** * Task management front end: API client and list controller

    A shallow embedding of [TaskService] (the API client), of
    [TASK_CONSTANTS] and of [TaskListComponent] (the list controller),
    followed by the properties of the specification that were checked
    against them.

    Conventions of the embedding.
    - A JavaScript string is a [string]; every [ascii] stands for one code
      unit in the range U+0000..U+00FF, so [String.length] is [.length].
    - A JavaScript number is a [number]: an integer or [NaN]. [Int z]
      stands for the number [z] as long as [z] is a safe integer
      ([JS.safe]); fractions, infinities and the doubles beyond
      2^53 - 1, which [parseInt] rounds to and [toString] prints in its
      own way, are outside the model, and every statement that reads or
      prints a number says so.
    - An optional property ([id?: string]) is an [option]; [None] is
      [undefined].
    - An object used as a lookup table is the finite map of its own
      properties, keyed by property name; a lookup that misses them goes
      on to the members every object inherits from [Object.prototype]
      ([JS.get]).
    - The controller's side effects (service calls, [alert], [confirm],
      [console.error]) are recorded in logs carried next to the component
      fields; a request stays in flight until a response event completes
      it. *)

From Stdlib Require Import ZArith String Ascii List Bool Lia.
From stdpp Require Import base option list gmap strings pretty.

Local Open Scope string_scope.
Local Open Scope list_scope.
Local Open Scope Z_scope.

(** ** JavaScript primitives used by the sources *)

Module JS.

(** Numbers: integers and [NaN]. *)
Inductive number : Type :=
| NaN
| Int (z : Z).

(** [Number.MAX_SAFE_INTEGER], 2^53 - 1. *)
Definition MAX_SAFE_INTEGER : Z := 9007199254740991.

(** The numbers the model stands for: [NaN] and the safe integers. *)
Definition safe (n : number) : Prop :=
  match n with
  | NaN => True
  | Int z => - MAX_SAFE_INTEGER <= z <= MAX_SAFE_INTEGER
  end.

(** [Number.prototype.toString()] of [NaN] and of a safe integer, which
    is printed in plain decimal. *)
Definition toString (n : number) : string :=
  match n with
  | NaN => "NaN"
  | Int z => pretty z
  end.

(** [a < b] and [a > b]; every comparison with [NaN] is false. *)
Definition lt (a b : number) : bool :=
  match a, b with
  | Int x, Int y => x <? y
  | _, _ => false
  end.

Definition gt (a b : number) : bool := lt b a.

(** [a - b]. *)
Definition sub (a b : number) : number :=
  match a, b with
  | Int x, Int y => Int (x - y)
  | _, _ => NaN
  end.

(** [Math.floor(a / d)] for a positive integer literal [d]. *)
Definition floor_div (a : number) (d : Z) : number :=
  match a with
  | Int x => Int (x / d)
  | NaN => NaN
  end.

(** Truthiness of a number ([0] and [NaN] are falsy), of a string (the
    empty string is falsy) and of an optional string ([undefined] is
    falsy). *)
Definition truthy_number (n : number) : bool :=
  match n with
  | NaN => false
  | Int z => negb (z =? 0)
  end.

Definition truthy (s : string) : bool :=
  match s with
  | EmptyString => false
  | String _ _ => true
  end.

Definition truthy_opt (o : option string) : bool :=
  match o with
  | None => false
  | Some s => truthy s
  end.

(** What a property lookup on a table of strings can give: a string of
    the table, or a member inherited from [Object.prototype] (a function,
    or the prototype itself for [__proto__]), named by its key. *)
Inductive value : Type :=
| Str (s : string)
| Member (name : string).

(** The property names of [Object.prototype]. *)
Definition Object_prototype : list string :=
  ["constructor"; "hasOwnProperty"; "isPrototypeOf"; "propertyIsEnumerable";
   "toLocaleString"; "toString"; "valueOf"; "__proto__";
   "__defineGetter__"; "__defineSetter__"; "__lookupGetter__";
   "__lookupSetter__"].

(** [object[key]] on an object literal whose own properties are strings:
    the own property if there is one, otherwise the inherited member of
    that name, otherwise [undefined]. *)
Definition get (object : gmap string string) (key : string) : option value :=
  match object !! key with
  | Some s => Some (Str s)
  | None =>
      if bool_decide (key ∈ Object_prototype) then Some (Member key)
      else None
  end.

(** [x || d] where [x] is the result of such a lookup: an inherited
    member is truthy, an empty string and [undefined] are not. *)
Definition or_else (x : option value) (d : string) : value :=
  match x with
  | Some (Str s) => if truthy s then Str s else Str d
  | Some (Member name) => Member name
  | None => Str d
  end.

(** White space and line terminators among the code units below 256:
    TAB, LF, VT, FF, CR, SP and NBSP. *)
Definition is_white_space (c : ascii) : bool :=
  let n := nat_of_ascii c in
  ((9 <=? n) && (n <=? 13) || (n =? 32) || (n =? 160))%nat.

Fixpoint trimStart (s : string) : string :=
  match s with
  | EmptyString => EmptyString
  | String c s' => if is_white_space c then trimStart s' else s
  end.

Definition trimEnd (s : string) : string :=
  String.rev (trimStart (String.rev s)).

(** [String.prototype.trim()]. *)
Definition trim (s : string) : string := trimEnd (trimStart s).

(** Decimal digits, for [parseInt(s, 10)]. *)
Definition digit_of (c : ascii) : option Z :=
  let n := nat_of_ascii c in
  if ((48 <=? n) && (n <=? 57))%nat then Some (Z.of_nat n - 48) else None.

(** Reads the longest prefix of digits; [None] when there is none. *)
Fixpoint digits (acc : option Z) (s : string) : option Z :=
  match s with
  | EmptyString => acc
  | String c s' =>
      match digit_of c with
      | Some d => digits (Some (10 * default 0 acc + d)) s'
      | None => acc
      end
  end.

(** [parseInt(s, 10)]: leading white space is skipped, one sign is
    accepted, the longest run of digits is read, anything after it is
    ignored, and no digit at all gives [NaN]. The digits are read
    exactly; this is the number [parseInt] returns when it is a safe
    integer ([safe]), beyond which [parseInt] rounds. *)
Definition parseInt10 (s : string) : number :=
  match trimStart s with
  | String "-" r =>
      match digits None r with Some v => Int (- v) | None => NaN end
  | String "+" r =>
      match digits None r with Some v => Int v | None => NaN end
  | r =>
      match digits None r with Some v => Int v | None => NaN end
  end.

End JS.

(** ** models/task.model.ts *)

(** [TaskStatus] is a string enum; at run time a status is the string. *)
Module TaskStatus.
Definition TODO : string := "TODO".
Definition IN_PROGRESS : string := "IN_PROGRESS".
Definition DONE : string := "DONE".
End TaskStatus.

Record Task : Type := {
  task_id : option string;
  task_title : string;
  task_description : string;
  task_status : string;
  task_priority : JS.number;
  task_dueDate : option string;
  task_createdAt : option string;
  task_updatedAt : option string
}.

Record TaskFilterParams : Type := {
  fp_status : option string;
  fp_priority : option JS.number;
  fp_dueDateFrom : option string;
  fp_dueDateTo : option string;
  fp_search : option string;
  fp_sortBy : option string;
  fp_sortDirection : option string
}.

(** The empty object literal [{}]. *)
Definition no_filters : TaskFilterParams :=
  {| fp_status := None; fp_priority := None; fp_dueDateFrom := None;
     fp_dueDateTo := None; fp_search := None; fp_sortBy := None;
     fp_sortDirection := None |}.

(** ** models/task.constants.ts *)

Module TASK_CONSTANTS.

(** The tables are objects; their keys are property names, so a numeric
    key [1] is the string ["1"]. *)
Module PRIORITY.
Definition MIN : JS.number := JS.Int 1.
Definition MAX : JS.number := JS.Int 5.
Definition DEFAULT : JS.number := JS.Int 3.
Definition LABELS : gmap string string :=
  list_to_map [("1", "Critical"); ("2", "High"); ("3", "Medium");
               ("4", "Low"); ("5", "Very Low")].
Definition ICONS : gmap string string :=
  list_to_map [("1", "bi bi-exclamation-circle-fill");
               ("2", "bi bi-exclamation-triangle-fill");
               ("3", "bi bi-info-circle-fill");
               ("4", "bi bi-dash-circle-fill");
               ("5", "bi bi-circle-fill")].
Definition CLASSES : gmap string string :=
  list_to_map [("1", "bg-priority-critical"); ("2", "bg-priority-high");
               ("3", "bg-priority-medium"); ("4", "bg-priority-low");
               ("5", "bg-priority-very-low")].
End PRIORITY.

Module STATUS.
Definition LABELS : gmap string string :=
  list_to_map [(TaskStatus.TODO, "To Do");
               (TaskStatus.IN_PROGRESS, "In Progress");
               (TaskStatus.DONE, "Done")].
Definition ICONS : gmap string string :=
  list_to_map [(TaskStatus.TODO, "bi bi-clipboard");
               (TaskStatus.IN_PROGRESS, "bi bi-arrow-repeat");
               (TaskStatus.DONE, "bi bi-check-circle-fill")].
Definition CLASSES : gmap string string :=
  list_to_map [(TaskStatus.TODO, "bg-status-todo");
               (TaskStatus.IN_PROGRESS, "bg-status-in-progress");
               (TaskStatus.DONE, "bg-status-done")].
End STATUS.

Module VALIDATION.
Definition TITLE_MAX_LENGTH : nat := 200.
Definition DESCRIPTION_MAX_LENGTH : nat := 1000.
End VALIDATION.

Module DEFAULTS.
Definition SORT_BY : string := "priority".
Definition SORT_DIRECTION : string := "asc".
End DEFAULTS.

Module ERROR_MESSAGES.
Definition LOAD_FAILED : string := "Failed to load tasks. Please try again.".
Definition CREATE_FAILED : string := "Failed to create task. Please try again.".
Definition UPDATE_FAILED : string := "Failed to update task. Please try again.".
Definition DELETE_FAILED : string := "Failed to delete task. Please try again.".
Definition TITLE_REQUIRED : string := "Title is required".
Definition TITLE_TOO_LONG : string := "Title must be less than 200 characters".
Definition DESCRIPTION_REQUIRED : string := "Description is required".
Definition STATUS_REQUIRED : string := "Status is required".
Definition PRIORITY_INVALID : string := "Priority must be between 1 and 5".
End ERROR_MESSAGES.

End TASK_CONSTANTS.

(** ** services/task.service.ts *)

Module TaskService.

(** [HttpParams]: [set] returns the parameters with the one value of
    [name] replaced. *)
Definition HttpParams : Type := gmap string string.

Definition set (name value : string) (params : gmap string string)
  : gmap string string :=
  <[name := value]> params.

(** The query parameters built by [getAllTasks(filters?)], field by
    field in the order of the source. *)
Definition getAllTasks_params (filters : option TaskFilterParams)
  : gmap string string :=
  let params : gmap string string := ∅ in
  match filters with
  | None => params
  | Some filters =>
      let params :=
        match fp_status filters with
        | Some v => if JS.truthy v then set "status" v params else params
        | None => params
        end in
      let params :=
        match fp_priority filters with
        | Some p => set "priority" (JS.toString p) params
        | None => params
        end in
      let params :=
        match fp_dueDateFrom filters with
        | Some v => if JS.truthy v then set "dueDateFrom" v params else params
        | None => params
        end in
      let params :=
        match fp_dueDateTo filters with
        | Some v => if JS.truthy v then set "dueDateTo" v params else params
        | None => params
        end in
      let params :=
        match fp_search filters with
        | Some v => if JS.truthy v then set "search" v params else params
        | None => params
        end in
      let params :=
        match fp_sortBy filters with
        | Some v => if JS.truthy v then set "sortBy" v params else params
        | None => params
        end in
      let params :=
        match fp_sortDirection filters with
        | Some v => if JS.truthy v then set "sortDirection" v params else params
        | None => params
        end in
      params
  end.

End TaskService.

(** ** components/task-list/task-list.component.ts *)

(** The fields of [TaskListComponent], in the order of the class. *)
Record Component : Type := {
  tasks : list Task;
  filteredTasks : list Task;
  filterStatus : string;
  filterPriority : string;
  searchQuery : string;
  dueDateFrom : string;
  dueDateTo : string;
  sortBy : string;
  sortDirection : string;
  showModal : bool;
  isEditMode : bool;
  currentTask : Task;
  showDetailsModal : bool;
  selectedTask : option Task;
  loading : bool;
  error : string
}.

(** Field assignments [this.f = v]. *)
Definition set_tasks (v : list Task) (c : Component) : Component :=
  Build_Component v (filteredTasks c) (filterStatus c) (filterPriority c)
    (searchQuery c) (dueDateFrom c) (dueDateTo c) (sortBy c)
    (sortDirection c) (showModal c) (isEditMode c) (currentTask c)
    (showDetailsModal c) (selectedTask c) (loading c) (error c).

Definition set_filteredTasks (v : list Task) (c : Component) : Component :=
  Build_Component (tasks c) v (filterStatus c) (filterPriority c)
    (searchQuery c) (dueDateFrom c) (dueDateTo c) (sortBy c)
    (sortDirection c) (showModal c) (isEditMode c) (currentTask c)
    (showDetailsModal c) (selectedTask c) (loading c) (error c).

Definition set_filterStatus (v : string) (c : Component) : Component :=
  Build_Component (tasks c) (filteredTasks c) v (filterPriority c)
    (searchQuery c) (dueDateFrom c) (dueDateTo c) (sortBy c)
    (sortDirection c) (showModal c) (isEditMode c) (currentTask c)
    (showDetailsModal c) (selectedTask c) (loading c) (error c).

Definition set_filterPriority (v : string) (c : Component) : Component :=
  Build_Component (tasks c) (filteredTasks c) (filterStatus c) v
    (searchQuery c) (dueDateFrom c) (dueDateTo c) (sortBy c)
    (sortDirection c) (showModal c) (isEditMode c) (currentTask c)
    (showDetailsModal c) (selectedTask c) (loading c) (error c).

Definition set_searchQuery (v : string) (c : Component) : Component :=
  Build_Component (tasks c) (filteredTasks c) (filterStatus c)
    (filterPriority c) v (dueDateFrom c) (dueDateTo c) (sortBy c)
    (sortDirection c) (showModal c) (isEditMode c) (currentTask c)
    (showDetailsModal c) (selectedTask c) (loading c) (error c).

Definition set_dueDateFrom (v : string) (c : Component) : Component :=
  Build_Component (tasks c) (filteredTasks c) (filterStatus c)
    (filterPriority c) (searchQuery c) v (dueDateTo c) (sortBy c)
    (sortDirection c) (showModal c) (isEditMode c) (currentTask c)
    (showDetailsModal c) (selectedTask c) (loading c) (error c).

Definition set_dueDateTo (v : string) (c : Component) : Component :=
  Build_Component (tasks c) (filteredTasks c) (filterStatus c)
    (filterPriority c) (searchQuery c) (dueDateFrom c) v (sortBy c)
    (sortDirection c) (showModal c) (isEditMode c) (currentTask c)
    (showDetailsModal c) (selectedTask c) (loading c) (error c).

Definition set_sortBy (v : string) (c : Component) : Component :=
  Build_Component (tasks c) (filteredTasks c) (filterStatus c)
    (filterPriority c) (searchQuery c) (dueDateFrom c) (dueDateTo c) v
    (sortDirection c) (showModal c) (isEditMode c) (currentTask c)
    (showDetailsModal c) (selectedTask c) (loading c) (error c).

Definition set_sortDirection (v : string) (c : Component) : Component :=
  Build_Component (tasks c) (filteredTasks c) (filterStatus c)
    (filterPriority c) (searchQuery c) (dueDateFrom c) (dueDateTo c)
    (sortBy c) v (showModal c) (isEditMode c) (currentTask c)
    (showDetailsModal c) (selectedTask c) (loading c) (error c).

Definition set_showModal (v : bool) (c : Component) : Component :=
  Build_Component (tasks c) (filteredTasks c) (filterStatus c)
    (filterPriority c) (searchQuery c) (dueDateFrom c) (dueDateTo c)
    (sortBy c) (sortDirection c) v (isEditMode c) (currentTask c)
    (showDetailsModal c) (selectedTask c) (loading c) (error c).

Definition set_isEditMode (v : bool) (c : Component) : Component :=
  Build_Component (tasks c) (filteredTasks c) (filterStatus c)
    (filterPriority c) (searchQuery c) (dueDateFrom c) (dueDateTo c)
    (sortBy c) (sortDirection c) (showModal c) v (currentTask c)
    (showDetailsModal c) (selectedTask c) (loading c) (error c).

Definition set_currentTask (v : Task) (c : Component) : Component :=
  Build_Component (tasks c) (filteredTasks c) (filterStatus c)
    (filterPriority c) (searchQuery c) (dueDateFrom c) (dueDateTo c)
    (sortBy c) (sortDirection c) (showModal c) (isEditMode c) v
    (showDetailsModal c) (selectedTask c) (loading c) (error c).

Definition set_showDetailsModal (v : bool) (c : Component) : Component :=
  Build_Component (tasks c) (filteredTasks c) (filterStatus c)
    (filterPriority c) (searchQuery c) (dueDateFrom c) (dueDateTo c)
    (sortBy c) (sortDirection c) (showModal c) (isEditMode c)
    (currentTask c) v (selectedTask c) (loading c) (error c).

Definition set_selectedTask (v : option Task) (c : Component) : Component :=
  Build_Component (tasks c) (filteredTasks c) (filterStatus c)
    (filterPriority c) (searchQuery c) (dueDateFrom c) (dueDateTo c)
    (sortBy c) (sortDirection c) (showModal c) (isEditMode c)
    (currentTask c) (showDetailsModal c) v (loading c) (error c).

Definition set_loading (v : bool) (c : Component) : Component :=
  Build_Component (tasks c) (filteredTasks c) (filterStatus c)
    (filterPriority c) (searchQuery c) (dueDateFrom c) (dueDateTo c)
    (sortBy c) (sortDirection c) (showModal c) (isEditMode c)
    (currentTask c) (showDetailsModal c) (selectedTask c) v (error c).

Definition set_error (v : string) (c : Component) : Component :=
  Build_Component (tasks c) (filteredTasks c) (filterStatus c)
    (filterPriority c) (searchQuery c) (dueDateFrom c) (dueDateTo c)
    (sortBy c) (sortDirection c) (showModal c) (isEditMode c)
    (currentTask c) (showDetailsModal c) (selectedTask c) (loading c) v.

(** Calls made on the injected [TaskService]. *)
Inductive ServiceCall : Type :=
| GetAllTasks (filters : option TaskFilterParams)
| CreateTask (task : Task)
| UpdateTask (id : string) (task : Task)
| DeleteTask (id : string).

(** What a request ends with: [next] followed by [complete], or [error].
    Only the list handler reads the body; the save and delete handlers are
    [next: () => ...]. *)
Inductive Response : Type :=
| Success (data : list Task)
| Failure (err : string).

(** The component together with what it has done to its surroundings.
    [calls] lists every service call ever made, oldest first; [inflight]
    lists the subscriptions that have not completed yet; [destroyed]
    tells whether [destroy$] has completed. *)
Record World : Type := {
  comp : Component;
  calls : list ServiceCall;
  inflight : list ServiceCall;
  alerts : list string;
  confirms : list string;
  console : list string;
  destroyed : bool
}.

Definition upd (f : Component -> Component) (w : World) : World :=
  {| comp := f (comp w); calls := calls w; inflight := inflight w;
     alerts := alerts w; confirms := confirms w; console := console w;
     destroyed := destroyed w |}.

(** [service.m(...).pipe(...).subscribe(...)]: the call is made and its
    subscription is in flight. *)
Definition subscribe (call : ServiceCall) (w : World) : World :=
  {| comp := comp w; calls := calls w ++ [call];
     inflight := inflight w ++ [call];
     alerts := alerts w; confirms := confirms w; console := console w;
     destroyed := destroyed w |}.

Definition set_inflight (l : list ServiceCall) (w : World) : World :=
  {| comp := comp w; calls := calls w; inflight := l;
     alerts := alerts w; confirms := confirms w; console := console w;
     destroyed := destroyed w |}.

Definition set_destroyed (b : bool) (w : World) : World :=
  {| comp := comp w; calls := calls w; inflight := inflight w;
     alerts := alerts w; confirms := confirms w; console := console w;
     destroyed := b |}.

Definition alert (msg : string) (w : World) : World :=
  {| comp := comp w; calls := calls w; inflight := inflight w;
     alerts := alerts w ++ [msg]; confirms := confirms w;
     console := console w; destroyed := destroyed w |}.

Definition confirm (msg : string) (w : World) : World :=
  {| comp := comp w; calls := calls w; inflight := inflight w;
     alerts := alerts w; confirms := confirms w ++ [msg];
     console := console w; destroyed := destroyed w |}.

Definition console_error (msg : string) (w : World) : World :=
  {| comp := comp w; calls := calls w; inflight := inflight w;
     alerts := alerts w; confirms := confirms w;
     console := console w ++ [msg]; destroyed := destroyed w |}.

Module TaskListComponent.

Import TASK_CONSTANTS.

Definition getEmptyTask : Task :=
  {| task_id := None;
     task_title := "";
     task_description := "";
     task_status := TaskStatus.TODO;
     task_priority := PRIORITY.DEFAULT;
     task_dueDate := Some "";
     task_createdAt := None;
     task_updatedAt := None |}.

(** The field initialisers of the class. *)
Definition new : Component :=
  {| tasks := [];
     filteredTasks := [];
     filterStatus := "";
     filterPriority := "";
     searchQuery := "";
     dueDateFrom := "";
     dueDateTo := "";
     sortBy := DEFAULTS.SORT_BY;
     sortDirection := DEFAULTS.SORT_DIRECTION;
     showModal := false;
     isEditMode := false;
     currentTask := getEmptyTask;
     showDetailsModal := false;
     selectedTask := None;
     loading := false;
     error := "" |}.

Definition buildFilterParams (c : Component) : TaskFilterParams :=
  {| fp_status :=
       if JS.truthy (filterStatus c) then Some (filterStatus c) else None;
     fp_priority :=
       if JS.truthy (filterPriority c)
       then Some (JS.parseInt10 (filterPriority c)) else None;
     fp_dueDateFrom :=
       if JS.truthy (dueDateFrom c) then Some (dueDateFrom c) else None;
     fp_dueDateTo :=
       if JS.truthy (dueDateTo c) then Some (dueDateTo c) else None;
     fp_search :=
       if JS.truthy (searchQuery c) then Some (searchQuery c) else None;
     fp_sortBy :=
       if JS.truthy (sortBy c) then Some (sortBy c) else None;
     fp_sortDirection :=
       if JS.truthy (sortDirection c) then Some (sortDirection c) else None |}.

(** *** loadTasks and its handlers *)

Definition loadTasks (w : World) : World :=
  let w := upd (set_loading true) w in
  let w := upd (set_error "") w in
  let filters := buildFilterParams (comp w) in
  subscribe (GetAllTasks (Some filters)) w.

Definition loadTasks_next (data : list Task) (w : World) : World :=
  let w := upd (set_tasks data) w in
  upd (set_filteredTasks data) w.

Definition loadTasks_error (err : string) (w : World) : World :=
  let w := upd (set_error ERROR_MESSAGES.LOAD_FAILED) w in
  console_error "Error loading tasks:" w.

(** [finalize(() => this.loading = false)]: runs when the subscription
    ends, after the [next] or [error] handler, and also when the
    subscription is cut short by [destroy$]. *)
Definition finalize (w : World) : World := upd (set_loading false) w.

Definition ngOnInit (w : World) : World := loadTasks w.

(** [destroy$.next()] ends every subscription in flight without calling
    its handlers; each one runs its [finalize]. [destroy$.complete()]
    then closes the subject for good: a subscription made afterwards is
    no longer cut by [takeUntil(destroy$)], and on a closed subject
    [next()] does nothing, so that a second [ngOnDestroy] ends nothing. *)
Definition ngOnDestroy (w : World) : World :=
  if destroyed w then w
  else
    let w' := foldr (fun _ w => finalize w) w (inflight w) in
    set_destroyed true (set_inflight [] w').

Definition applyFilters (w : World) : World := loadTasks w.

Definition clearFilters (w : World) : World :=
  let w := upd (set_filterStatus "") w in
  let w := upd (set_filterPriority "") w in
  let w := upd (set_searchQuery "") w in
  let w := upd (set_dueDateFrom "") w in
  let w := upd (set_dueDateTo "") w in
  let w := upd (set_sortBy DEFAULTS.SORT_BY) w in
  let w := upd (set_sortDirection DEFAULTS.SORT_DIRECTION) w in
  loadTasks w.

(** *** The create and edit modal *)

Definition openCreateModal (w : World) : World :=
  let w := upd (set_isEditMode false) w in
  let w := upd (set_currentTask getEmptyTask) w in
  upd (set_showModal true) w.

Definition openEditModal (task : Task) (w : World) : World :=
  let w := upd (set_isEditMode true) w in
  let w := upd (set_currentTask task) w in
  upd (set_showModal true) w.

Definition closeModal (w : World) : World :=
  let w := upd (set_showModal false) w in
  let w := upd (set_currentTask getEmptyTask) w in
  upd (set_error "") w.

(** *** validateTask *)

Definition validateTask (w : World) : bool * World :=
  let title := task_title (currentTask (comp w)) in
  let description := task_description (currentTask (comp w)) in
  let status := task_status (currentTask (comp w)) in
  let priority := task_priority (currentTask (comp w)) in
  if negb (JS.truthy (JS.trim title)) then
    (false, alert ERROR_MESSAGES.TITLE_REQUIRED w)
  else if (VALIDATION.TITLE_MAX_LENGTH <? String.length title)%nat then
    (false, alert ERROR_MESSAGES.TITLE_TOO_LONG w)
  else if negb (JS.truthy (JS.trim description)) then
    (false, alert ERROR_MESSAGES.DESCRIPTION_REQUIRED w)
  else if negb (JS.truthy status) then
    (false, alert ERROR_MESSAGES.STATUS_REQUIRED w)
  else if negb (JS.truthy_number priority)
          || JS.lt priority PRIORITY.MIN
          || JS.gt priority PRIORITY.MAX then
    (false, alert ERROR_MESSAGES.PRIORITY_INVALID w)
  else
    (true, w).

(** *** saveTask and its handlers *)

(** [this.isEditMode && this.currentTask.id ? updateTask(...) :
    createTask(...)]. *)
Definition save_operation (c : Component) : ServiceCall :=
  match isEditMode c, task_id (currentTask c) with
  | true, Some id =>
      if JS.truthy id then UpdateTask id (currentTask c)
      else CreateTask (currentTask c)
  | _, _ => CreateTask (currentTask c)
  end.

Definition saveTask (w : World) : World :=
  let (valid, w) := validateTask w in
  if negb valid then w
  else
    let w := upd (set_loading true) w in
    subscribe (save_operation (comp w)) w.

Definition saveTask_next (w : World) : World :=
  let w := loadTasks w in
  closeModal w.

Definition saveTask_error (err : string) (w : World) : World :=
  let w :=
    upd (set_error (if isEditMode (comp w)
                    then ERROR_MESSAGES.UPDATE_FAILED
                    else ERROR_MESSAGES.CREATE_FAILED)) w in
  console_error ("Error " +:+
                 (if isEditMode (comp w) then "updating" else "creating")
                 +:+ " task:") w.

(** *** deleteTask and its handlers *)

(** [answer] is what the user replies if the confirmation is shown. *)
Definition deleteTask (id : option string) (answer : bool) (w : World)
  : World :=
  match id with
  | None => w
  | Some id =>
      if negb (JS.truthy id) then w
      else
        let w := confirm "Are you sure you want to delete this task?" w in
        if negb answer then w
        else
          let w := upd (set_loading true) w in
          subscribe (DeleteTask id) w
  end.

Definition deleteTask_next (w : World) : World := loadTasks w.

Definition deleteTask_error (err : string) (w : World) : World :=
  let w := upd (set_error ERROR_MESSAGES.DELETE_FAILED) w in
  console_error "Error deleting task:" w.

(** *** The details modal *)

Definition viewTaskDetails (task : Task) (w : World) : World :=
  let w := upd (set_selectedTask (Some task)) w in
  upd (set_showDetailsModal true) w.

Definition closeDetailsModal (w : World) : World :=
  let w := upd (set_showDetailsModal false) w in
  upd (set_selectedTask None) w.

(** *** Completion of a request

    The [n]-th subscription in flight receives its response: the handler
    chosen at [subscribe] runs, then [finalize]. Nothing happens when
    there is no such subscription. *)
Definition respond (n : nat) (r : Response) (w : World) : World :=
  match inflight w !! n with
  | None => w
  | Some call =>
      let w := set_inflight (delete n (inflight w)) w in
      let w :=
        match call, r with
        | GetAllTasks _, Success data => loadTasks_next data w
        | GetAllTasks _, Failure err => loadTasks_error err w
        | CreateTask _, Success _ => saveTask_next w
        | UpdateTask _ _, Success _ => saveTask_next w
        | CreateTask _, Failure err => saveTask_error err w
        | UpdateTask _ _, Failure err => saveTask_error err w
        | DeleteTask _, Success _ => deleteTask_next w
        | DeleteTask _, Failure err => deleteTask_error err w
        end in
      finalize w
  end.

(** *** Helper methods *)

Definition getPriorityLabel (priority : JS.number) : JS.value :=
  JS.or_else (JS.get PRIORITY.LABELS (JS.toString priority)) "Unknown".

Definition getPriorityClass (priority : JS.number) : JS.value :=
  JS.or_else (JS.get PRIORITY.CLASSES (JS.toString priority)) "bg-secondary".

Definition getStatusClass (status : string) : JS.value :=
  JS.or_else (JS.get STATUS.CLASSES status) "bg-secondary".

Definition getTaskCountByStatus (c : Component) (status : string) : nat :=
  length (filter (fun task => task_status task = status) (filteredTasks c)).

Definition getPriorityIcon (priority : JS.number) : JS.value :=
  JS.or_else (JS.get PRIORITY.ICONS (JS.toString priority)) "bi bi-circle".

Definition getStatusIcon (status : string) : JS.value :=
  JS.or_else (JS.get STATUS.ICONS status) "bi bi-question-circle".

Definition getStatusLabel (status : string) : JS.value :=
  JS.or_else (JS.get STATUS.LABELS status) status.

(** [getTimeAgo(date)]. [now] is the time value of [new Date()];
    [Date_parse] gives the time value of [new Date(date)], [NaN] for a
    string that is not a date; [toLocaleDateString] formats a time value
    in the user's locale. Neither constructor throws, so the [catch]
    branch is never taken. *)
Section TimeAgo.

Variable Date_parse : string -> JS.number.
Variable toLocaleDateString : JS.number -> string.

Definition diffInSeconds (now : Z) (date : string) : JS.number :=
  JS.floor_div (JS.sub (JS.Int now) (Date_parse date)) 1000.

Definition getTimeAgo (now : Z) (date : string) : string :=
  let past := Date_parse date in
  let diffInSeconds := diffInSeconds now date in
  if JS.lt diffInSeconds (JS.Int 60) then "Just now"
  else if JS.lt diffInSeconds (JS.Int 3600) then
    JS.toString (JS.floor_div diffInSeconds 60) +:+ "m ago"
  else if JS.lt diffInSeconds (JS.Int 86400) then
    JS.toString (JS.floor_div diffInSeconds 3600) +:+ "h ago"
  else if JS.lt diffInSeconds (JS.Int 604800) then
    JS.toString (JS.floor_div diffInSeconds 86400) +:+ "d ago"
  else toLocaleDateString past.

End TimeAgo.

End TaskListComponent.

(** ** The controller as a state machine *)

(** What the form bindings of the template write: the filter fields and
    the draft. *)
Inductive FormInput : Type :=
| InFilterStatus (v : string)
| InFilterPriority (v : string)
| InSearchQuery (v : string)
| InDueDateFrom (v : string)
| InDueDateTo (v : string)
| InSortBy (v : string)
| InSortDirection (v : string)
| InCurrentTask (v : Task).

Definition input (i : FormInput) (w : World) : World :=
  match i with
  | InFilterStatus v => upd (set_filterStatus v) w
  | InFilterPriority v => upd (set_filterPriority v) w
  | InSearchQuery v => upd (set_searchQuery v) w
  | InDueDateFrom v => upd (set_dueDateFrom v) w
  | InDueDateTo v => upd (set_dueDateTo v) w
  | InSortBy v => upd (set_sortBy v) w
  | InSortDirection v => upd (set_sortDirection v) w
  | InCurrentTask v => upd (set_currentTask v) w
  end.

(** Everything that can happen to the controller: a method is called, the
    user types into the form, or a request in flight completes. *)
Inductive Event : Type :=
| NgOnInit
| NgOnDestroy
| LoadTasks
| ApplyFilters
| ClearFilters
| OpenCreateModal
| OpenEditModal (task : Task)
| CloseModal
| ValidateTask
| SaveTask
| DeleteTaskEv (id : option string) (answer : bool)
| ViewTaskDetails (task : Task)
| CloseDetailsModal
| Input (i : FormInput)
| Respond (n : nat) (r : Response).

Definition step (e : Event) (w : World) : World :=
  match e with
  | NgOnInit => TaskListComponent.ngOnInit w
  | NgOnDestroy => TaskListComponent.ngOnDestroy w
  | LoadTasks => TaskListComponent.loadTasks w
  | ApplyFilters => TaskListComponent.applyFilters w
  | ClearFilters => TaskListComponent.clearFilters w
  | OpenCreateModal => TaskListComponent.openCreateModal w
  | OpenEditModal task => TaskListComponent.openEditModal task w
  | CloseModal => TaskListComponent.closeModal w
  | ValidateTask => snd (TaskListComponent.validateTask w)
  | SaveTask => TaskListComponent.saveTask w
  | DeleteTaskEv id answer => TaskListComponent.deleteTask id answer w
  | ViewTaskDetails task => TaskListComponent.viewTaskDetails task w
  | CloseDetailsModal => TaskListComponent.closeDetailsModal w
  | Input i => input i w
  | Respond n r => TaskListComponent.respond n r w
  end.

(** Events are handled one at a time, oldest first. *)
Definition run (es : list Event) (w : World) : World :=
  foldl (fun w e => step e w) w es.

Definition init : World :=
  {| comp := TaskListComponent.new; calls := []; inflight := [];
     alerts := []; confirms := []; console := []; destroyed := false |}.

(** ** Properties stated by the specification *)

Module Spec.

Import TASK_CONSTANTS.

(** *** Query parameters *)

(** A string filter [field] is sent under [name] with its own value
    exactly when it is truthy. *)
Definition sent_iff_truthy (name : string) (field : option string)
    (params : gmap string string) : Prop :=
  (forall v, field = Some v -> v <> "" -> params !! name = Some v) /\
  (field = None \/ field = Some "" -> params !! name = None).

(** The priority is sent in its string form when it is truthy and is not
    sent when it is absent or falsy: the reading under which priority
    follows the rule of the string fields. *)
Definition priority_sent_iff_truthy (field : option JS.number)
    (params : gmap string string) : Prop :=
  (forall p, field = Some p -> JS.truthy_number p = true ->
             params !! "priority" = Some (JS.toString p)) /\
  (field = None \/ (exists p, field = Some p /\ JS.truthy_number p = false) ->
   params !! "priority" = None).

(** The priority is sent exactly when it is defined, and a priority the
    model stands for is sent in its string form. *)
Definition priority_sent_iff_defined (field : option JS.number)
    (params : gmap string string) : Prop :=
  (forall p, field = Some p ->
             is_Some (params !! "priority") /\
             (JS.safe p -> params !! "priority" = Some (JS.toString p))) /\
  (field = None -> params !! "priority" = None).

Definition string_fields_encoded (f : TaskFilterParams)
    (params : gmap string string) : Prop :=
  sent_iff_truthy "status" (fp_status f) params /\
  sent_iff_truthy "dueDateFrom" (fp_dueDateFrom f) params /\
  sent_iff_truthy "dueDateTo" (fp_dueDateTo f) params /\
  sent_iff_truthy "search" (fp_search f) params /\
  sent_iff_truthy "sortBy" (fp_sortBy f) params /\
  sent_iff_truthy "sortDirection" (fp_sortDirection f) params.

Definition filter_names : list string :=
  ["status"; "priority"; "dueDateFrom"; "dueDateTo"; "search"; "sortBy";
   "sortDirection"].

(** Every truthy field is sent, and no absent or falsy field is. *)
Definition truthy_fields_only (f : TaskFilterParams) : Prop :=
  let params := TaskService.getAllTasks_params (Some f) in
  string_fields_encoded f params /\
  priority_sent_iff_truthy (fp_priority f) params.

(** *** Lookup helpers *)

(** A helper [h] answers one fixed value on every code missing from
    [table]. *)
Definition generic_fallback {A : Type} (key : A -> string)
    (table : gmap string string) (h : A -> JS.value) : Prop :=
  exists fallback, forall code, table !! key code = None -> h code = fallback.

(** A helper [h] answers the entry of [table] on every code that has
    one. *)
Definition table_entry {A : Type} (key : A -> string)
    (table : gmap string string) (h : A -> JS.value) : Prop :=
  forall code v, table !! key code = Some v -> h code = JS.Str v.

(** A helper [h] answers [d] on every code that is missing from [table]
    and does not name a member of [Object.prototype]. *)
Definition fallback_is {A : Type} (key : A -> string)
    (table : gmap string string) (h : A -> JS.value) (d : string) : Prop :=
  forall code, table !! key code = None ->
               key code ∉ JS.Object_prototype -> h code = JS.Str d.

(** A helper [h] answers the inherited member on every code that is
    missing from [table] and names a member of [Object.prototype]. *)
Definition inherited_member {A : Type} (key : A -> string)
    (table : gmap string string) (h : A -> JS.value) : Prop :=
  forall code, table !! key code = None ->
               key code ∈ JS.Object_prototype ->
               h code = JS.Member (key code).

(** *** Validation *)

Definition title_present (t : Task) : Prop := JS.trim (task_title t) <> "".

Definition title_fits (t : Task) : Prop :=
  (String.length (task_title t) <= 200)%nat.

Definition description_present (t : Task) : Prop :=
  JS.trim (task_description t) <> "".

Definition status_set (t : Task) : Prop := task_status t <> "".

Definition priority_in_range (t : Task) : Prop :=
  exists z, task_priority t = JS.Int z /\ 1 <= z <= 5.

(** The five checks together. *)
Definition well_formed (t : Task) : Prop :=
  title_present t /\ title_fits t /\ description_present t /\
  status_set t /\ priority_in_range t.

(** The invariant of the data model: the five checks and the bound on
    the description. *)
Definition task_invariant (t : Task) : Prop :=
  title_present t /\
  (1 <= String.length (task_title t) <= 200)%nat /\
  description_present t /\
  (String.length (task_description t) <= 1000)%nat /\
  status_set t /\
  priority_in_range t.

(** *** Saving *)

(** A valid draft goes to [updateTask] exactly when the edit-mode flag
    is set, and to [createTask] exactly when it is not. *)
Definition dispatch_by_edit_flag (w : World) : Prop :=
  fst (TaskListComponent.validateTask w) = true ->
  (isEditMode (comp w) = true <->
   exists id, calls (TaskListComponent.saveTask w)
              = calls w ++ [UpdateTask id (currentTask (comp w))]) /\
  (isEditMode (comp w) = false <->
   calls (TaskListComponent.saveTask w)
   = calls w ++ [CreateTask (currentTask (comp w))]).

(** *** Reloading *)

(** What [clearFilters] leaves to ask for: the default sort order and
    nothing else. *)
Definition default_filters : TaskFilterParams :=
  {| fp_status := None; fp_priority := None; fp_dueDateFrom := None;
     fp_dueDateTo := None; fp_search := None;
     fp_sortBy := Some "priority"; fp_sortDirection := Some "asc" |}.

(** While any request is in flight the loading flag is set. *)
Definition loading_while_in_flight (w : World) : Prop :=
  inflight w <> [] -> loading (comp w) = true.

(** The events that end a subscription. *)
Definition completes (e : Event) : bool :=
  match e with
  | Respond _ _ | NgOnDestroy => true
  | _ => false
  end.

(** The list delivered by [e] when [e] is the successful completion of a
    list request in flight. *)
Definition loaded (e : Event) (w : World) : option (list Task) :=
  match e with
  | Respond n (Success data) =>
      match inflight w !! n with
      | Some (GetAllTasks _) => Some data
      | _ => None
      end
  | _ => None
  end.

(** The list delivered last along [es] from [w], or [acc] if none was. *)
Fixpoint last_loaded (es : list Event) (w : World) (acc : list Task)
  : list Task :=
  match es with
  | [] => acc
  | e :: es' => last_loaded es' (step e w) (default acc (loaded e w))
  end.

(** The number of tasks of [l] whose status is [status]. *)
Definition count_status (status : string) (l : list Task) : nat :=
  length (filter (fun task => task_status task = status) l).

End Spec.

(** ** Sample inputs *)

(** ['a'.repeat(n)] and the like. *)
Fixpoint repeat_char (c : ascii) (n : nat) : string :=
  match n with
  | O => EmptyString
  | S n' => String c (repeat_char c n')
  end.

Definition zero_priority_filters : TaskFilterParams :=
  {| fp_status := None; fp_priority := Some (JS.Int 0);
     fp_dueDateFrom := None; fp_dueDateTo := None; fp_search := None;
     fp_sortBy := None; fp_sortDirection := None |}.

Definition test_filters : TaskFilterParams :=
  {| fp_status := Some "TODO"; fp_priority := Some (JS.Int 1);
     fp_dueDateFrom := None; fp_dueDateTo := Some "";
     fp_search := Some "test"; fp_sortBy := Some "priority";
     fp_sortDirection := Some "asc" |}.

(** [{title: "Valid Title", description: "Valid Description",
    status: "TODO", priority: 3}]. *)
Definition valid_draft : Task :=
  {| task_id := None;
     task_title := "Valid Title";
     task_description := "Valid Description";
     task_status := TaskStatus.TODO;
     task_priority := JS.Int 3;
     task_dueDate := None;
     task_createdAt := None;
     task_updatedAt := None |}.

(** The valid draft with a description of 1001 characters. *)
Definition long_description_draft : Task :=
  {| task_id := None;
     task_title := "Valid Title";
     task_description := repeat_char "a" 1001;
     task_status := TaskStatus.TODO;
     task_priority := JS.Int 3;
     task_dueDate := None;
     task_createdAt := None;
     task_updatedAt := None |}.

Definition with_draft (t : Task) : World := input (InCurrentTask t) init.

(** The valid draft opened through the edit modal although the task has
    no id yet. *)
Definition unsaved_edit : World :=
  TaskListComponent.openEditModal valid_draft init.

Definition saved_task : Task :=
  {| task_id := Some "1";
     task_title := "Updated Task";
     task_description := "Updated Description";
     task_status := TaskStatus.DONE;
     task_priority := JS.Int 1;
     task_dueDate := None;
     task_createdAt := None;
     task_updatedAt := None |}.

Definition saved_edit : World :=
  TaskListComponent.openEditModal saved_task init.

(** A component whose first list request is still in flight. *)
Definition loading_world : World := step NgOnInit init.

(** A delete request in flight on top of the first list request. *)
Definition deleting_world : World :=
  step (DeleteTaskEv (Some "1") true) loading_world.

(** A valid draft has been saved with success: the handler has started the
    reload and closed the modal, and the subscription of the save is
    over. *)
Definition reloading_after_save : World :=
  run [Input (InCurrentTask valid_draft); SaveTask; Respond 0 (Success [])]
    init.

(** A clock for the examples: every date string parses to the epoch, and
    dates are printed as the string below. *)
Definition epoch_parse (date : string) : JS.number := JS.Int 0.

Definition epoch_print (time : JS.number) : string := "1/1/1970".

(** The three tasks of the component tests, reduced to what matters. *)
Definition mock_tasks : list Task :=
  [ {| task_id := Some "1"; task_title := "Test Task 1";
       task_description := "Description 1"; task_status := TaskStatus.TODO;
       task_priority := JS.Int 1; task_dueDate := Some "2025-12-31";
       task_createdAt := Some "2025-10-01T10:00:00Z";
       task_updatedAt := None |};
    {| task_id := Some "2"; task_title := "Test Task 2";
       task_description := "Description 2";
       task_status := TaskStatus.IN_PROGRESS;
       task_priority := JS.Int 2; task_dueDate := Some "2025-11-30";
       task_createdAt := Some "2025-10-02T10:00:00Z";
       task_updatedAt := None |};
    {| task_id := Some "3"; task_title := "Test Task 3";
       task_description := "Description 3"; task_status := TaskStatus.DONE;
       task_priority := JS.Int 3; task_dueDate := Some "2025-10-15";
       task_createdAt := Some "2025-10-03T10:00:00Z";
       task_updatedAt := None |} ].

(** ** services/task.service.ts: the requests sent *)

Module Http.

Inductive Method : Type := GET | POST | PUT | DELETE.

(** What [HttpClient] is asked to send. *)
Record Request : Type := {
  method : Method;
  url : string;
  params : gmap string string;
  body : option Task
}.

Section Service.

(** [environment.apiUrl]; the environment file is not among the sources. *)
Variable environment_apiUrl : string.

Definition apiUrl : string := environment_apiUrl +:+ "/tasks".

Definition getAllTasks (filters : option TaskFilterParams) : Request :=
  {| method := GET; url := apiUrl;
     params := TaskService.getAllTasks_params filters; body := None |}.

Definition getTaskById (id : string) : Request :=
  {| method := GET; url := apiUrl +:+ "/" +:+ id; params := ∅;
     body := None |}.

Definition createTask (task : Task) : Request :=
  {| method := POST; url := apiUrl; params := ∅; body := Some task |}.

Definition updateTask (id : string) (task : Task) : Request :=
  {| method := PUT; url := apiUrl +:+ "/" +:+ id; params := ∅;
     body := Some task |}.

Definition deleteTask (id : string) : Request :=
  {| method := DELETE; url := apiUrl +:+ "/" +:+ id; params := ∅;
     body := None |}.

(** The request behind a call of the controller. *)
Definition send (call : ServiceCall) : Request :=
  match call with
  | GetAllTasks filters => getAllTasks filters
  | CreateTask task => createTask task
  | UpdateTask id task => updateTask id task
  | DeleteTask id => deleteTask id
  end.

End Service.

End Http.

(** ** Vocabulary of the further properties *)

Module Props.

Import TASK_CONSTANTS.

(** [s] has a character that [trim] keeps. *)
Definition has_non_white_space (s : string) : Prop :=
  exists c, In c (list_ascii_of_string s) /\ JS.is_white_space c = false.

(** A filter field as [buildFilterParams] leaves it: absent or not
    empty. *)
Definition field_ok (field : option string) : Prop := field <> Some "".

(** What can be said of every call the controller makes. *)
Definition call_ok (call : ServiceCall) : Prop :=
  match call with
  | GetAllTasks filters =>
      exists f, filters = Some f /\
        field_ok (fp_status f) /\ field_ok (fp_dueDateFrom f) /\
        field_ok (fp_dueDateTo f) /\ field_ok (fp_search f) /\
        field_ok (fp_sortBy f) /\ field_ok (fp_sortDirection f)
  | CreateTask task => Spec.well_formed task
  | UpdateTask id task =>
      Spec.well_formed task /\ task_id task = Some id /\ id <> ""
  | DeleteTask id => id <> ""
  end.

(** The events that can make a service call. *)
Definition may_call (e : Event) : bool :=
  match e with
  | NgOnInit | LoadTasks | ApplyFilters | ClearFilters | SaveTask
  | DeleteTaskEv _ _ | Respond _ _ => true
  | _ => false
  end.

(** The calls made by [saveTask]. *)
Definition is_save (call : ServiceCall) : bool :=
  match call with
  | CreateTask _ | UpdateTask _ _ => true
  | _ => false
  end.

(** The error messages the component can show. *)
Definition error_messages : list string :=
  [""; ERROR_MESSAGES.LOAD_FAILED; ERROR_MESSAGES.CREATE_FAILED;
   ERROR_MESSAGES.UPDATE_FAILED; ERROR_MESSAGES.DELETE_FAILED].

(** The messages [validateTask] can show. *)
Definition validation_messages : list string :=
  [ERROR_MESSAGES.TITLE_REQUIRED; ERROR_MESSAGES.TITLE_TOO_LONG;
   ERROR_MESSAGES.DESCRIPTION_REQUIRED; ERROR_MESSAGES.STATUS_REQUIRED;
   ERROR_MESSAGES.PRIORITY_INVALID].

Definition known_status (status : string) : Prop :=
  status = TaskStatus.TODO \/ status = TaskStatus.IN_PROGRESS \/
  status = TaskStatus.DONE.

Definition known_priority (priority : JS.number) : Prop :=
  exists z, priority = JS.Int z /\ 1 <= z <= 5.

(** The parameter sent for a filter field of the component. *)
Definition param_of_field (field : string) : option string :=
  if JS.truthy field then Some field else None.

End Props.

(** The valid draft with a title of blanks, a tab and a line feed. *)
Definition blank_title_draft : Task :=
  {| task_id := None;
     task_title := String " " (String "009" (String "010" " "));
     task_description := "Valid Description";
     task_status := TaskStatus.TODO;
     task_priority := JS.Int 3;
     task_dueDate := None;
     task_createdAt := None;
     task_updatedAt := None |}.

(** A component whose priority filter holds the given text. *)
Definition with_priority_filter (text : string) : World :=
  input (InFilterPriority text) init.

(** A component that was destroyed while its first load was in flight
    and then asked to load again. *)
Definition loading_after_destroy : World :=
  run [NgOnInit; NgOnDestroy; LoadTasks] init.

(** A component with two list requests in flight. *)
Definition two_loads : World := run [NgOnInit; ApplyFilters] init.

(** A save of the valid draft, opened for editing without id, in
    flight. *)
Definition saving_unsaved_edit : World :=
  TaskListComponent.saveTask unsaved_edit.

(** * Properties *)

(** ** Worked examples *)

Example params_of_test_filters :
  TaskService.getAllTasks_params
    (Some {| fp_status := Some "TODO"; fp_priority := Some (JS.Int 1);
             fp_dueDateFrom := None; fp_dueDateTo := None;
             fp_search := Some "test"; fp_sortBy := Some "priority";
             fp_sortDirection := Some "asc" |})
  = list_to_map [("status", "TODO"); ("priority", "1"); ("search", "test");
                 ("sortBy", "priority"); ("sortDirection", "asc")].
Proof. vm_compute. reflexivity. Qed.

Example parseInt10_examples :
  JS.parseInt10 "1" = JS.Int 1 /\ JS.parseInt10 "  -42px" = JS.Int (-42) /\
  JS.parseInt10 "abc" = JS.NaN /\ JS.parseInt10 "0" = JS.Int 0 /\
  JS.trim "  a b	 " = "a b".
Proof. vm_compute. repeat split; reflexivity. Qed.

(** ** Query parameters of [getAllTasks] *)

Section QueryParameters.

Import TaskService.

(** A guarded [set] on another name does not change what is found under
    [name]. *)
Lemma lookup_guarded_set_ne (name k : string) (field : option string)
    (params : gmap string string) :
  k <> name ->
  match field with
  | Some v => if JS.truthy v then set k v params else params
  | None => params
  end !! name = params !! name.
Proof.
  intros Hne. destruct field as [v|]; [|done].
  destruct (JS.truthy v); [|done].
  unfold set. by rewrite lookup_insert_ne.
Qed.

Lemma lookup_priority_set_ne (name : string) (field : option JS.number)
    (params : gmap string string) :
  "priority" <> name ->
  match field with
  | Some p => set "priority" (JS.toString p) params
  | None => params
  end !! name = params !! name.
Proof.
  intros Hne. destruct field as [p|]; [|done].
  unfold set. by rewrite lookup_insert_ne.
Qed.

Lemma truthy_nonempty (v : string) : JS.truthy v = true <-> v <> "".
Proof. destruct v; simpl; split; congruence. Qed.

(** A guarded [set] on [name] itself, on parameters that do not have
    [name] yet. *)
Lemma lookup_guarded_set_eq (name : string) (field : option string)
    (params : gmap string string) :
  params !! name = None ->
  Spec.sent_iff_truthy name field
    (match field with
     | Some v => if JS.truthy v then set name v params else params
     | None => params
     end).
Proof.
  intros Hfresh. split.
  - intros v -> Hv. apply truthy_nonempty in Hv. rewrite Hv.
    unfold set. apply lookup_insert_eq.
  - intros [-> | ->]; simpl; exact Hfresh.
Qed.

Ltac skip_other_fields :=
  repeat first
    [ rewrite lookup_guarded_set_ne by discriminate
    | rewrite lookup_priority_set_ne by discriminate ].

(** Each string field taken alone. *)
Lemma getAllTasks_string_fields (f : TaskFilterParams) :
  Spec.string_fields_encoded f (getAllTasks_params (Some f)).
Proof.
  unfold Spec.string_fields_encoded, getAllTasks_params.
  repeat split; intros;
    match goal with
    | H : _ = Some ?v, Hv : ?v <> "" |- _ =>
        skip_other_fields; rewrite H;
        apply truthy_nonempty in Hv; rewrite Hv;
        unfold set; apply lookup_insert_eq
    | H : _ \/ _ |- _ =>
        skip_other_fields; destruct H as [-> | ->]; simpl;
        skip_other_fields; apply lookup_empty
    end.
Qed.

Lemma getAllTasks_priority (f : TaskFilterParams) :
  Spec.priority_sent_iff_defined (fp_priority f)
    (getAllTasks_params (Some f)).
Proof.
  unfold getAllTasks_params. split.
  - intros p Hp.
    assert (Hsent : forall params : gmap string string,
              set "priority" (JS.toString p) params !! "priority"
              = Some (JS.toString p))
      by (intros params; unfold set; apply lookup_insert_eq).
    skip_other_fields. rewrite Hp, Hsent. by split; [eexists|].
  - intros Hp. skip_other_fields. rewrite Hp.
    skip_other_fields. apply lookup_empty.
Qed.

Lemma getAllTasks_no_other_name (f : TaskFilterParams) (name : string) :
  name ∉ Spec.filter_names -> getAllTasks_params (Some f) !! name = None.
Proof.
  intros Hname. unfold getAllTasks_params.
  assert (Hne : forall k, k ∈ Spec.filter_names -> k <> name)
    by (intros k Hk ->; contradiction).
  rewrite !lookup_guarded_set_ne, lookup_priority_set_ne,
    lookup_guarded_set_ne by (apply Hne; set_solver).
  apply lookup_empty.
Qed.

End QueryParameters.

(** C1, as amended. For every filter object given to [getAllTasks]: each
    of the string fields status, dueDateFrom, dueDateTo, search, sortBy and
    sortDirection is sent under its own name with its own value when it is
    a non-empty string, and is not sent when it is absent or empty;
    priority is sent whenever it is defined, zero included, as the string
    form of the number, which for a whole number up to 2^53 - 1 in
    magnitude is its decimal numeral, and is not sent when it is absent;
    no parameter of another name is sent; without a filter object nothing
    is sent. *)
Theorem getAllTasks_params_spec (f : TaskFilterParams) :
  let params := TaskService.getAllTasks_params (Some f) in
  Spec.string_fields_encoded f params /\
  Spec.priority_sent_iff_defined (fp_priority f) params /\
  (forall name, name ∉ Spec.filter_names -> params !! name = None) /\
  TaskService.getAllTasks_params None = ∅.
Proof.
  split; [apply getAllTasks_string_fields|].
  split; [apply getAllTasks_priority|].
  split; [apply getAllTasks_no_other_name | reflexivity].
Qed.

(** C1 as stated fails: the falsy priority [0] is sent as [priority=0]. *)
Lemma getAllTasks_sends_zero_priority :
  ~ Spec.truthy_fields_only zero_priority_filters.
Proof.
  intros [_ [_ Hfalsy]].
  assert (H : TaskService.getAllTasks_params (Some zero_priority_filters)
              !! "priority" = None).
  { apply Hfalsy. right. exists (JS.Int 0). split; reflexivity. }
  vm_compute in H. discriminate H.
Qed.

(** ** Numerals *)

Section Numerals.

Lemma digit_of_pretty_N_char (d : N) :
  (d < 10)%N -> JS.digit_of (pretty_N_char d) = Some (Z.of_N d).
Proof.
  intros Hd.
  assert (d = 0 \/ d = 1 \/ d = 2 \/ d = 3 \/ d = 4 \/ d = 5 \/ d = 6 \/
          d = 7 \/ d = 8 \/ d = 9)%N as Hcases by lia.
  repeat destruct Hcases as [-> | Hcases]; try subst d; reflexivity.
Qed.

(** Reading the digits that [pretty_N_go] writes in front of [s]. *)
Lemma digits_pretty_N_go (x : N) :
  forall (a : Z) (s : string),
    exists k : Z,
      0 <= k /\
      JS.digits (Some a) (pretty_N_go x s)
      = JS.digits (Some (a * 10 ^ k + Z.of_N x)) s.
Proof.
  induction (N.lt_wf_0 x) as [x _ IH]. intros a s.
  destruct (decide (x = 0%N)) as [-> | Hx].
  - exists 0. split; [lia|]. rewrite pretty_N_go_0. f_equal. f_equal. lia.
  - rewrite pretty_N_go_step by lia.
    destruct (IH (x `div` 10)%N) with (a := a)
      (s := String (pretty_N_char (x `mod` 10)) s) as (k & Hk & ->).
    { apply N.div_lt; lia. }
    exists (k + 1). split; [lia|]. simpl.
    rewrite digit_of_pretty_N_char by (apply N.mod_lt; lia). simpl.
    f_equal. f_equal.
    rewrite Z.pow_add_r, Z.pow_1_r by lia.
    rewrite (N.div_mod x 10) at 3 by lia.
    rewrite N2Z.inj_add, N2Z.inj_mul. simpl Z.of_N. lia.
Qed.

(** A positive numeral starts with a digit. *)
Lemma pretty_N_go_head (x : N) :
  forall s, (0 < x)%N ->
    exists d r, (d < 10)%N /\ pretty_N_go x s = String (pretty_N_char d) r.
Proof.
  induction (N.lt_wf_0 x) as [x _ IH]. intros s Hx.
  rewrite pretty_N_go_step by done.
  destruct (decide (x `div` 10 = 0)%N) as [-> | Hdiv].
  - rewrite pretty_N_go_0. exists (x `mod` 10)%N, s. split; [|reflexivity].
    apply N.mod_lt. lia.
  - apply IH.
    + apply N.div_lt; lia.
    + by apply N.neq_0_lt_0.
Qed.

Lemma digits_positive (p : positive) :
  exists d r, (d < 10)%N /\ pretty (N.pos p) = String (pretty_N_char d) r /\
              JS.digits None (pretty (N.pos p)) = Some (Z.pos p).
Proof.
  unfold pretty, pretty_N. rewrite decide_False by done.
  destruct (pretty_N_go_head (N.pos p) "") as (d & r & Hd & Hhead); [lia|].
  exists d, r. split; [done|]. split; [done|].
  destruct (digits_pretty_N_go (N.pos p) 0 "") as (k & _ & Hdigits).
  rewrite Hhead in Hdigits |- *. cbn [JS.digits] in Hdigits |- *.
  rewrite digit_of_pretty_N_char in Hdigits |- * by done.
  cbv [default from_option id] in Hdigits |- *.
  rewrite Hdigits. reflexivity.
Qed.

Lemma pretty_N_char_plain (d : N) :
  (d < 10)%N ->
  JS.is_white_space (pretty_N_char d) = false /\
  pretty_N_char d <> "-"%char /\ pretty_N_char d <> "+"%char.
Proof.
  intros Hd.
  assert (d = 0 \/ d = 1 \/ d = 2 \/ d = 3 \/ d = 4 \/ d = 5 \/ d = 6 \/
          d = 7 \/ d = 8 \/ d = 9)%N as Hcases by lia.
  repeat destruct Hcases as [-> | Hcases]; try subst d;
    repeat split; discriminate.
Qed.

(** [parseInt] on a string that starts with neither white space nor a
    sign. *)
Lemma parseInt10_unsigned (c : ascii) (r : string) :
  JS.is_white_space c = false -> c <> "-"%char -> c <> "+"%char ->
  JS.parseInt10 (String c r)
  = match JS.digits None (String c r) with
    | Some v => JS.Int v
    | None => JS.NaN
    end.
Proof.
  intros Hws Hminus Hplus. unfold JS.parseInt10.
  cbn [JS.trimStart]. rewrite Hws.
  destruct c as [[] [] [] [] [] [] [] []]; try congruence; reflexivity.
Qed.

(** The digits of the numeral of [z] read back as [z]. *)
Lemma parseInt10_pretty (z : Z) : JS.parseInt10 (pretty z) = JS.Int z.
Proof.
  destruct z as [|p|p].
  - reflexivity.
  - change (pretty (Z.pos p)) with (pretty (N.pos p)).
    destruct (digits_positive p) as (d & r & Hd & Hhead & Hdigits).
    destruct (pretty_N_char_plain d Hd) as (Hws & Hminus & Hplus).
    rewrite Hhead in Hdigits |- *.
    by rewrite parseInt10_unsigned, Hdigits.
  - change (pretty (Z.neg p)) with (String "-"%char (pretty (N.pos p))).
    destruct (digits_positive p) as (d & r & Hd & Hhead & Hdigits).
    unfold JS.parseInt10. cbn [JS.trimStart].
    change (JS.is_white_space "-") with false. cbv beta iota.
    by rewrite Hdigits.
Qed.

End Numerals.

(** ** Lookup helpers *)

Section LookupHelpers.

Import TASK_CONSTANTS TaskListComponent.

Lemma get_own (table : gmap string string) (k v : string) :
  table !! k = Some v -> JS.get table k = Some (JS.Str v).
Proof. unfold JS.get. by intros ->. Qed.

Lemma get_nothing (table : gmap string string) (k : string) :
  table !! k = None -> k ∉ JS.Object_prototype -> JS.get table k = None.
Proof.
  unfold JS.get. intros -> Hk. by rewrite bool_decide_eq_false_2.
Qed.

Lemma get_inherited (table : gmap string string) (k : string) :
  table !! k = None -> k ∈ JS.Object_prototype ->
  JS.get table k = Some (JS.Member k).
Proof.
  unfold JS.get. intros -> Hk. by rewrite bool_decide_eq_true_2.
Qed.

Lemma or_else_entry (table : gmap string string) (k v d : string) :
  map_Forall (fun _ v => JS.truthy v = true) table ->
  table !! k = Some v -> JS.or_else (JS.get table k) d = JS.Str v.
Proof.
  intros Hall Hk. rewrite (get_own table k v Hk). simpl.
  by rewrite (Hall k v Hk).
Qed.

Lemma or_else_missing (table : gmap string string) (k d : string) :
  table !! k = None -> k ∉ JS.Object_prototype ->
  JS.or_else (JS.get table k) d = JS.Str d.
Proof. intros Hk Hown. by rewrite get_nothing. Qed.

Lemma or_else_inherited (table : gmap string string) (k d : string) :
  table !! k = None -> k ∈ JS.Object_prototype ->
  JS.or_else (JS.get table k) d = JS.Member k.
Proof. intros Hk Hin. by rewrite get_inherited. Qed.

(** The string form of a number never names a member of
    [Object.prototype]: it reads as a number or is "NaN". *)
Lemma toString_not_inherited (p : JS.number) :
  JS.toString p ∉ JS.Object_prototype.
Proof.
  intros Hin. unfold JS.Object_prototype in Hin.
  repeat (apply elem_of_cons in Hin as [Hin | Hin]);
    try (by apply elem_of_nil in Hin);
    destruct p as [|z]; try discriminate Hin;
    simpl in Hin; apply (f_equal JS.parseInt10) in Hin;
    rewrite parseInt10_pretty in Hin; vm_compute in Hin; discriminate Hin.
Qed.

(** No table holds an empty string, so [||] never replaces an entry. *)
Lemma tables_truthy :
  Forall (map_Forall (fun _ v => JS.truthy v = true))
    [PRIORITY.LABELS; PRIORITY.ICONS; PRIORITY.CLASSES;
     STATUS.LABELS; STATUS.ICONS; STATUS.CLASSES].
Proof.
  repeat constructor;
    apply map_Forall_to_list; vm_compute; repeat constructor.
Qed.

Lemma helpers_table_entry :
  Spec.table_entry JS.toString PRIORITY.LABELS getPriorityLabel /\
  Spec.table_entry JS.toString PRIORITY.ICONS getPriorityIcon /\
  Spec.table_entry JS.toString PRIORITY.CLASSES getPriorityClass /\
  Spec.table_entry id STATUS.LABELS getStatusLabel /\
  Spec.table_entry id STATUS.ICONS getStatusIcon /\
  Spec.table_entry id STATUS.CLASSES getStatusClass.
Proof.
  pose proof tables_truthy as H.
  repeat match type of H with
         | Forall _ (_ :: _) =>
             apply Forall_cons in H; destruct H as [? H]
         end.
  repeat split; intros code v Hv; by apply or_else_entry.
Qed.

End LookupHelpers.

(** C9, as amended. On a code that has an entry in its table each of the
    six helpers returns that entry. On a code without an entry that does
    not name a member of Object.prototype, getPriorityLabel returns
    "Unknown", getPriorityIcon "bi bi-circle", getPriorityClass and
    getStatusClass "bg-secondary", getStatusIcon "bi bi-question-circle",
    and getStatusLabel returns the status code it was given. The string
    form of a number never names such a member, so this covers every
    priority. On a status that names a member of Object.prototype, such
    as "constructor", the three status helpers return that inherited
    member, which is neither an entry nor a fallback. *)
Theorem lookup_helpers_spec :
  (Spec.table_entry JS.toString TASK_CONSTANTS.PRIORITY.LABELS
     TaskListComponent.getPriorityLabel /\
   Spec.table_entry JS.toString TASK_CONSTANTS.PRIORITY.ICONS
     TaskListComponent.getPriorityIcon /\
   Spec.table_entry JS.toString TASK_CONSTANTS.PRIORITY.CLASSES
     TaskListComponent.getPriorityClass /\
   Spec.table_entry id TASK_CONSTANTS.STATUS.LABELS
     TaskListComponent.getStatusLabel /\
   Spec.table_entry id TASK_CONSTANTS.STATUS.ICONS
     TaskListComponent.getStatusIcon /\
   Spec.table_entry id TASK_CONSTANTS.STATUS.CLASSES
     TaskListComponent.getStatusClass) /\
  (Spec.fallback_is JS.toString TASK_CONSTANTS.PRIORITY.LABELS
     TaskListComponent.getPriorityLabel "Unknown" /\
   Spec.fallback_is JS.toString TASK_CONSTANTS.PRIORITY.ICONS
     TaskListComponent.getPriorityIcon "bi bi-circle" /\
   Spec.fallback_is JS.toString TASK_CONSTANTS.PRIORITY.CLASSES
     TaskListComponent.getPriorityClass "bg-secondary" /\
   Spec.fallback_is id TASK_CONSTANTS.STATUS.ICONS
     TaskListComponent.getStatusIcon "bi bi-question-circle" /\
   Spec.fallback_is id TASK_CONSTANTS.STATUS.CLASSES
     TaskListComponent.getStatusClass "bg-secondary" /\
   (forall status, TASK_CONSTANTS.STATUS.LABELS !! status = None ->
                   status ∉ JS.Object_prototype ->
                   TaskListComponent.getStatusLabel status = JS.Str status)) /\
  (forall priority, JS.toString priority ∉ JS.Object_prototype) /\
  (Spec.inherited_member id TASK_CONSTANTS.STATUS.LABELS
     TaskListComponent.getStatusLabel /\
   Spec.inherited_member id TASK_CONSTANTS.STATUS.ICONS
     TaskListComponent.getStatusIcon /\
   Spec.inherited_member id TASK_CONSTANTS.STATUS.CLASSES
     TaskListComponent.getStatusClass).
Proof.
  split; [exact helpers_table_entry|]. split; [|split].
  - repeat split; intros code Hcode Hown; by apply or_else_missing.
  - apply toString_not_inherited.
  - repeat split; intros code Hcode Hin; by apply or_else_inherited.
Qed.

(** C9 as stated fails for getStatusLabel: no single value is returned on
    the codes missing from the table, since "ARCHIVED" comes back as
    "ARCHIVED" and "BLOCKED" as "BLOCKED". *)
Lemma getStatusLabel_echoes_unknown_code :
  ~ Spec.generic_fallback id TASK_CONSTANTS.STATUS.LABELS
      TaskListComponent.getStatusLabel.
Proof.
  intros [fallback H].
  assert (Ha : TaskListComponent.getStatusLabel "ARCHIVED" = fallback)
    by (apply H; vm_compute; reflexivity).
  assert (Hb : TaskListComponent.getStatusLabel "BLOCKED" = fallback)
    by (apply H; vm_compute; reflexivity).
  vm_compute in Ha, Hb. congruence.
Qed.

(** What the helpers return on codes of the tables, on codes outside
    them, and on the name of an inherited member. *)
Lemma lookup_helpers_witness :
  TaskListComponent.getPriorityLabel (JS.Int 1) = JS.Str "Critical" /\
  TaskListComponent.getStatusIcon "DONE" = JS.Str "bi bi-check-circle-fill" /\
  TaskListComponent.getPriorityLabel (JS.Int 9) = JS.Str "Unknown" /\
  TaskListComponent.getStatusLabel "ARCHIVED" = JS.Str "ARCHIVED" /\
  TaskListComponent.getStatusClass "constructor" = JS.Member "constructor".
Proof.
  destruct lookup_helpers_spec
    as ((Hpl & _ & _ & _ & Hsi & _) & (Hpl' & _ & _ & _ & _ & Hsl')
        & Hkey & (_ & _ & Hsc)).
  refine (conj _ (conj _ (conj _ (conj _ _)))).
  - apply Hpl. vm_compute. reflexivity.
  - apply (Hsi "DONE"). vm_compute. reflexivity.
  - apply Hpl'; [vm_compute; reflexivity | apply Hkey].
  - apply Hsl'; [vm_compute; reflexivity|].
    apply (bool_decide_unpack _). vm_compute. reflexivity.
  - apply (Hsc "constructor"); [vm_compute; reflexivity|].
    apply (bool_decide_unpack _). vm_compute. reflexivity.
Defined.

(** The parameters of a request with some fields set, one empty and one
    absent. *)
Lemma getAllTasks_params_witness :
  let params := TaskService.getAllTasks_params (Some test_filters) in
  params !! "status" = Some "TODO" /\
  params !! "priority" = Some "1" /\
  params !! "dueDateFrom" = None /\
  params !! "dueDateTo" = None /\
  params !! "limit" = None.
Proof.
  destruct (getAllTasks_params_spec test_filters)
    as [[Hstatus [Hfrom [Hto _]]] [[Hprio _] [Hother _]]].
  refine (conj _ (conj _ (conj _ (conj _ _)))).
  - apply Hstatus; [reflexivity | discriminate].
  - destruct (Hprio (JS.Int 1)) as [_ Hone]; [reflexivity|].
    apply Hone. unfold JS.safe, JS.MAX_SAFE_INTEGER. lia.
  - apply Hfrom. left. reflexivity.
  - apply Hto. right. reflexivity.
  - apply Hother. apply (bool_decide_unpack _). vm_compute. reflexivity.
Defined.

(** ** Validation of the draft *)

Section Validation.

Import TASK_CONSTANTS TaskListComponent.

Lemma trim_empty : JS.trim "" = "".
Proof. reflexivity. Qed.

Lemma title_present_iff (t : Task) :
  Spec.title_present t <-> JS.truthy (JS.trim (task_title t)) = true.
Proof. unfold Spec.title_present. by rewrite truthy_nonempty. Qed.

Lemma title_fits_iff (t : Task) :
  Spec.title_fits t <->
  (VALIDATION.TITLE_MAX_LENGTH <? String.length (task_title t))%nat = false.
Proof.
  unfold Spec.title_fits, VALIDATION.TITLE_MAX_LENGTH.
  rewrite Nat.ltb_ge. reflexivity.
Qed.

Lemma description_present_iff (t : Task) :
  Spec.description_present t <->
  JS.truthy (JS.trim (task_description t)) = true.
Proof. unfold Spec.description_present. by rewrite truthy_nonempty. Qed.

Lemma status_set_iff (t : Task) :
  Spec.status_set t <-> JS.truthy (task_status t) = true.
Proof. unfold Spec.status_set. by rewrite truthy_nonempty. Qed.

Lemma priority_in_range_iff (t : Task) :
  Spec.priority_in_range t <->
  negb (JS.truthy_number (task_priority t))
  || JS.lt (task_priority t) PRIORITY.MIN
  || JS.gt (task_priority t) PRIORITY.MAX = false.
Proof.
  unfold Spec.priority_in_range, PRIORITY.MIN, PRIORITY.MAX, JS.gt.
  destruct (task_priority t) as [|z]; simpl.
  - split; [intros (z & Hz & _); discriminate | discriminate].
  - rewrite !orb_false_iff, negb_false_iff, negb_true_iff, Z.eqb_neq,
      !Z.ltb_ge.
    split.
    + intros (z' & Hz & Hrange). injection Hz as <-. lia.
    + intros [[Hnz Hlo] Hhi]. exists z. split; [reflexivity | lia].
Qed.

Lemma not_true_false (b : bool) : b <> true <-> b = false.
Proof. destruct b; split; congruence. Qed.

Lemma not_false_true (b : bool) : b <> false <-> b = true.
Proof. destruct b; split; congruence. Qed.

(** Turns the checks known to pass or to fail into the values of the
    conditions of [validateTask]. *)
Ltac conditions :=
  repeat match goal with
    | H : Spec.title_present _ |- _ => apply title_present_iff in H
    | H : ~ Spec.title_present _ |- _ =>
        rewrite title_present_iff, not_true_false in H
    | H : Spec.title_fits _ |- _ => apply title_fits_iff in H
    | H : ~ Spec.title_fits _ |- _ =>
        rewrite title_fits_iff, not_false_true in H
    | H : Spec.description_present _ |- _ =>
        apply description_present_iff in H
    | H : ~ Spec.description_present _ |- _ =>
        rewrite description_present_iff, not_true_false in H
    | H : Spec.status_set _ |- _ => apply status_set_iff in H
    | H : ~ Spec.status_set _ |- _ =>
        rewrite status_set_iff, not_true_false in H
    | H : Spec.priority_in_range _ |- _ => apply priority_in_range_iff in H
    | H : ~ Spec.priority_in_range _ |- _ =>
        rewrite priority_in_range_iff, not_false_true in H
    end.

Ltac run_validateTask :=
  unfold validateTask;
  repeat match goal with
    | x := _ |- _ => subst x
    end;
  repeat match goal with
    | H : _ = true |- _ => rewrite H; clear H
    | H : _ = false |- _ => rewrite H; clear H
    end;
  simpl; try reflexivity.

Variable w : World.
Let t := currentTask (comp w).

Lemma validateTask_title_required :
  ~ Spec.title_present t ->
  validateTask w = (false, alert ERROR_MESSAGES.TITLE_REQUIRED w).
Proof. intros. conditions. run_validateTask. Qed.

Lemma validateTask_title_too_long :
  Spec.title_present t -> ~ Spec.title_fits t ->
  validateTask w = (false, alert ERROR_MESSAGES.TITLE_TOO_LONG w).
Proof. intros. conditions. run_validateTask. Qed.

Lemma validateTask_description_required :
  Spec.title_present t -> Spec.title_fits t ->
  ~ Spec.description_present t ->
  validateTask w = (false, alert ERROR_MESSAGES.DESCRIPTION_REQUIRED w).
Proof. intros. conditions. run_validateTask. Qed.

Lemma validateTask_status_required :
  Spec.title_present t -> Spec.title_fits t ->
  Spec.description_present t -> ~ Spec.status_set t ->
  validateTask w = (false, alert ERROR_MESSAGES.STATUS_REQUIRED w).
Proof. intros. conditions. run_validateTask. Qed.

Lemma validateTask_priority_invalid :
  Spec.title_present t -> Spec.title_fits t ->
  Spec.description_present t -> Spec.status_set t ->
  ~ Spec.priority_in_range t ->
  validateTask w = (false, alert ERROR_MESSAGES.PRIORITY_INVALID w).
Proof. intros. conditions. run_validateTask. Qed.

Lemma validateTask_well_formed :
  Spec.well_formed t -> validateTask w = (true, w).
Proof. intros (? & ? & ? & ? & ?). conditions. run_validateTask. Qed.

(** The result is [false] with one message, or [true] with none. *)
Lemma validateTask_outcome :
  (fst (validateTask w) = true /\ snd (validateTask w) = w) \/
  (fst (validateTask w) = false /\
   exists msg, snd (validateTask w) = alert msg w).
Proof.
  unfold validateTask.
  repeat match goal with
         | |- context [if ?b then _ else _] => destruct b
         end; simpl; eauto.
Qed.

Lemma validateTask_true_iff :
  fst (validateTask w) = true <-> Spec.well_formed t.
Proof.
  split.
  - intros Hv. unfold Spec.well_formed.
    rewrite title_present_iff, title_fits_iff, description_present_iff,
      status_set_iff, priority_in_range_iff.
    unfold validateTask in Hv. fold t in Hv.
    repeat match type of Hv with
           | context [if negb ?b then _ else _] =>
               destruct b eqn:?; simpl in Hv; try discriminate Hv
           | context [if ?b then _ else _] =>
               destruct b eqn:?; simpl in Hv; try discriminate Hv
           end.
    repeat split; assumption.
  - intros Hwf. by rewrite (validateTask_well_formed Hwf).
Qed.

End Validation.

Lemma validateTask_frame (w : World) :
  let w' := snd (TaskListComponent.validateTask w) in
  comp w' = comp w /\ calls w' = calls w /\ inflight w' = inflight w /\
  confirms w' = confirms w /\ console w' = console w.
Proof.
  destruct (validateTask_outcome w) as [[_ ->] | [_ [msg ->]]];
    repeat split; reflexivity.
Qed.

Lemma validateTask_reads_draft_only (w w' : World) :
  currentTask (comp w') = currentTask (comp w) ->
  fst (TaskListComponent.validateTask w')
  = fst (TaskListComponent.validateTask w).
Proof.
  intros Hdraft. unfold TaskListComponent.validateTask. rewrite Hdraft.
  repeat match goal with
         | |- context [if ?b then _ else _] => destruct b
         end; reflexivity.
Qed.

Lemma validateTask_rejects (w : World) :
  ~ Spec.well_formed (currentTask (comp w)) ->
  fst (TaskListComponent.validateTask w) = false.
Proof.
  intros Hnot. apply not_true_false. by rewrite validateTask_true_iff.
Qed.

(** C2. [validateTask] reads nothing but the draft and changes nothing
    but the list of messages shown. It checks, in this order and stopping
    at the first failure, that the trimmed title is not empty, that the
    title has at most 200 characters, that the trimmed description is not
    empty, that the status is truthy, and that the priority is a number
    from 1 to 5; the message shown is that of the first failed check. It
    returns true exactly when all five pass. So it returns false on an
    empty title, on a title of 201 characters, on an empty description
    and on priority 10, and true on the draft with title "Valid Title",
    description "Valid Description", status "TODO" and priority 3. *)
Theorem validateTask_spec (w : World) :
  let t := currentTask (comp w) in
  let r := TaskListComponent.validateTask w in
  (comp (snd r) = comp w /\ calls (snd r) = calls w /\
   inflight (snd r) = inflight w /\
   forall w', currentTask (comp w') = t ->
              fst (TaskListComponent.validateTask w') = fst r) /\
  (fst r = true <-> Spec.well_formed t) /\
  (~ Spec.title_present t ->
   r = (false, alert TASK_CONSTANTS.ERROR_MESSAGES.TITLE_REQUIRED w)) /\
  (Spec.title_present t -> ~ Spec.title_fits t ->
   r = (false, alert TASK_CONSTANTS.ERROR_MESSAGES.TITLE_TOO_LONG w)) /\
  (Spec.title_present t -> Spec.title_fits t ->
   ~ Spec.description_present t ->
   r = (false, alert TASK_CONSTANTS.ERROR_MESSAGES.DESCRIPTION_REQUIRED w)) /\
  (Spec.title_present t -> Spec.title_fits t ->
   Spec.description_present t -> ~ Spec.status_set t ->
   r = (false, alert TASK_CONSTANTS.ERROR_MESSAGES.STATUS_REQUIRED w)) /\
  (Spec.title_present t -> Spec.title_fits t ->
   Spec.description_present t -> Spec.status_set t ->
   ~ Spec.priority_in_range t ->
   r = (false, alert TASK_CONSTANTS.ERROR_MESSAGES.PRIORITY_INVALID w)) /\
  (Spec.well_formed t -> r = (true, w)) /\
  (task_title t = "" -> fst r = false) /\
  (String.length (task_title t) = 201%nat -> fst r = false) /\
  (task_description t = "" -> fst r = false) /\
  (task_priority t = JS.Int 10 -> fst r = false) /\
  (task_title t = "Valid Title" ->
   task_description t = "Valid Description" ->
   task_status t = "TODO" ->
   task_priority t = JS.Int 3 ->
   r = (true, w)).
Proof.
  intros t r.
  split; [|split; [|split; [|split; [|split; [|split; [|split; [|split;
    [|split; [|split; [|split; [|split]]]]]]]]]]].
  - destruct (validateTask_frame w) as (Hc & Hcalls & Hin & _).
    repeat split; try assumption.
    intros w' Hw'. by apply validateTask_reads_draft_only.
  - apply validateTask_true_iff.
  - apply validateTask_title_required.
  - apply validateTask_title_too_long.
  - apply validateTask_description_required.
  - apply validateTask_status_required.
  - apply validateTask_priority_invalid.
  - apply validateTask_well_formed.
  - intros Htitle. apply validateTask_rejects. intros (Hp & _).
    apply Hp. fold t. by rewrite Htitle.
  - intros Hlen. apply validateTask_rejects. intros (_ & Hfit & _).
    unfold Spec.title_fits in Hfit. fold t in Hfit. lia.
  - intros Hdesc. apply validateTask_rejects. intros (_ & _ & Hd & _).
    apply Hd. fold t. by rewrite Hdesc.
  - intros Hprio. apply validateTask_rejects. intros (_ & _ & _ & _ & Hr).
    destruct Hr as (z & Hz & Hrange). fold t in Hz.
    rewrite Hprio in Hz. injection Hz as <-. lia.
  - intros Htitle Hdesc Hstatus Hprio. apply validateTask_well_formed.
    unfold Spec.well_formed, Spec.title_present, Spec.title_fits,
      Spec.description_present, Spec.status_set, Spec.priority_in_range.
    fold t. rewrite Htitle, Hdesc, Hstatus, Hprio.
    repeat split; try discriminate.
    + simpl. lia.
    + exists 3. split; [reflexivity | lia].
Qed.

(** The valid draft is accepted; the empty draft of a new component is
    rejected with the first message, and a draft of 201 letters with the
    second. *)
Lemma validateTask_witness :
  TaskListComponent.validateTask (with_draft valid_draft)
  = (true, with_draft valid_draft) /\
  TaskListComponent.validateTask init
  = (false, alert "Title is required" init) /\
  fst (TaskListComponent.validateTask init) = false /\
  fst (TaskListComponent.validateTask
         (with_draft
            {| task_id := None; task_title := repeat_char "a" 201;
               task_description := ""; task_status := "";
               task_priority := JS.NaN; task_dueDate := None;
               task_createdAt := None; task_updatedAt := None |})) = false.
Proof.
  refine (conj _ (conj _ (conj _ _))).
  - destruct (validateTask_spec (with_draft valid_draft))
      as (_ & _ & _ & _ & _ & _ & _ & _ & _ & _ & _ & _ & Hvalid).
    apply Hvalid; reflexivity.
  - destruct (validateTask_spec init) as (_ & _ & Hrequired & _).
    apply Hrequired. intros H. apply H. reflexivity.
  - destruct (validateTask_spec init)
      as (_ & _ & _ & _ & _ & _ & _ & _ & Hempty & _).
    apply Hempty. reflexivity.
  - match goal with
    | |- fst (TaskListComponent.validateTask ?w) = false =>
        destruct (validateTask_spec w)
          as (_ & _ & _ & _ & _ & _ & _ & _ & _ & Hlen & _)
    end.
    apply Hlen. vm_compute. reflexivity.
Defined.

(** C3 does not hold of the code: [validateTask] never looks at the length
    of the description, although VALIDATION.DESCRIPTION_MAX_LENGTH is
    declared next to the limit on the title. The valid draft with a
    description of 1001 characters is accepted and breaks the invariant of
    the data model. *)
Theorem validateTask_accepts_long_description :
  TaskListComponent.validateTask (with_draft long_description_draft)
  = (true, with_draft long_description_draft) /\
  String.length (task_description long_description_draft) = 1001%nat /\
  (TASK_CONSTANTS.VALIDATION.DESCRIPTION_MAX_LENGTH
   < String.length (task_description long_description_draft))%nat /\
  ~ Spec.task_invariant long_description_draft.
Proof.
  assert (Hlen : String.length (task_description long_description_draft)
                 = 1001%nat) by (vm_compute; reflexivity).
  refine (conj _ (conj Hlen (conj _ _))).
  - vm_compute. reflexivity.
  - rewrite Hlen. unfold TASK_CONSTANTS.VALIDATION.DESCRIPTION_MAX_LENGTH. lia.
  - intros (_ & _ & _ & Hbound & _). rewrite Hlen in Hbound. lia.
Qed.

(** ** Saving the draft *)

Section Saving.

Import TASK_CONSTANTS TaskListComponent.

Variable w : World.

Lemma saveTask_invalid :
  fst (validateTask w) = false -> saveTask w = snd (validateTask w).
Proof.
  intros Hv. unfold saveTask.
  destruct (validateTask w) as [valid w']. simpl in *. by rewrite Hv.
Qed.

Lemma saveTask_valid :
  fst (validateTask w) = true ->
  saveTask w
  = subscribe (save_operation (comp w)) (upd (set_loading true) w).
Proof.
  intros Hv. unfold saveTask.
  destruct (validateTask_outcome w) as [[_ Hw] | [Hf _]];
    [|congruence].
  destruct (validateTask w) as [valid w']. simpl in *. subst. reflexivity.
Qed.

Lemma save_operation_update (id : string) :
  isEditMode (comp w) = true ->
  task_id (currentTask (comp w)) = Some id -> id <> "" ->
  save_operation (comp w) = UpdateTask id (currentTask (comp w)).
Proof.
  intros Hedit Hid Hne. unfold save_operation.
  apply truthy_nonempty in Hne. by rewrite Hedit, Hid, Hne.
Qed.

Lemma save_operation_create :
  isEditMode (comp w) = false \/
  task_id (currentTask (comp w)) = None \/
  task_id (currentTask (comp w)) = Some "" ->
  save_operation (comp w) = CreateTask (currentTask (comp w)).
Proof.
  unfold save_operation.
  intros [-> | [-> | ->]]; [done | |]; by destruct (isEditMode (comp w)).
Qed.

End Saving.

(** C4, as amended. When [validateTask] returns false, [saveTask] makes no
    service call, starts no request and leaves the component as it was;
    only the validation message is shown. When it returns true,
    [saveTask] makes exactly one call: [updateTask] with the id of the
    draft when the edit-mode flag is set and the draft has a non-empty id,
    and [createTask] when the flag is not set or the draft has no id. *)
Theorem saveTask_spec (w : World) :
  let t := currentTask (comp w) in
  let w' := TaskListComponent.saveTask w in
  (fst (TaskListComponent.validateTask w) = false ->
   calls w' = calls w /\ inflight w' = inflight w /\ comp w' = comp w /\
   exists msg, w' = alert msg w) /\
  (fst (TaskListComponent.validateTask w) = true ->
   (forall id, isEditMode (comp w) = true -> task_id t = Some id ->
               id <> "" ->
               calls w' = calls w ++ [UpdateTask id t] /\
               inflight w' = inflight w ++ [UpdateTask id t]) /\
   (isEditMode (comp w) = false \/ task_id t = None \/ task_id t = Some "" ->
    calls w' = calls w ++ [CreateTask t] /\
    inflight w' = inflight w ++ [CreateTask t])).
Proof.
  intros t w'. split.
  - intros Hv. subst w'. rewrite (saveTask_invalid w Hv).
    destruct (validateTask_outcome w) as [[Ht _] | [_ [msg ->]]];
      [congruence|].
    repeat split; try reflexivity. by exists msg.
  - intros Hv. subst w'. rewrite (saveTask_valid w Hv). split.
    + intros id Hedit Hid Hne.
      rewrite (save_operation_update w id Hedit Hid Hne). by split.
    + intros Hcase. rewrite (save_operation_create w Hcase). by split.
Qed.

(** C4 as stated fails: opened through the edit modal, a valid draft
    without id has the edit-mode flag set and is sent to [createTask]. *)
Lemma saveTask_creates_in_edit_mode :
  ~ Spec.dispatch_by_edit_flag unsaved_edit.
Proof.
  intros H.
  destruct H as [[Hupdate _] _]; [vm_compute; reflexivity|].
  destruct Hupdate as [id Hid]; [reflexivity|].
  vm_compute in Hid. discriminate Hid.
Qed.

(** An invalid draft is not sent; a task with an id opened for editing is
    updated; a valid draft without id is created, in edit mode or not. *)
Lemma saveTask_witness :
  calls (TaskListComponent.saveTask init) = [] /\
  calls (TaskListComponent.saveTask saved_edit) = [UpdateTask "1" saved_task] /\
  calls (TaskListComponent.saveTask unsaved_edit) = [CreateTask valid_draft] /\
  calls (TaskListComponent.saveTask (with_draft valid_draft))
  = [CreateTask valid_draft].
Proof.
  refine (conj _ (conj _ (conj _ _))).
  - destruct (saveTask_spec init) as [Hinvalid _].
    destruct Hinvalid as [Hcalls _]; [vm_compute; reflexivity|].
    exact Hcalls.
  - destruct (saveTask_spec saved_edit) as [_ Hvalid].
    destruct Hvalid as [Hupdate _]; [vm_compute; reflexivity|].
    destruct (Hupdate "1") as [Hcalls _];
      [reflexivity | reflexivity | discriminate |].
    exact Hcalls.
  - destruct (saveTask_spec unsaved_edit) as [_ Hvalid].
    destruct Hvalid as [_ Hcreate]; [vm_compute; reflexivity|].
    destruct Hcreate as [Hcalls _]; [right; left; reflexivity|].
    exact Hcalls.
  - destruct (saveTask_spec (with_draft valid_draft)) as [_ Hvalid].
    destruct Hvalid as [_ Hcreate]; [vm_compute; reflexivity|].
    destruct Hcreate as [Hcalls _]; [left; reflexivity|].
    exact Hcalls.
Defined.

(** ** Clearing the filters *)

(** C5. Whatever the state before, [clearFilters] leaves status, priority,
    search text and both due dates empty, sortBy "priority" and
    sortDirection "asc", and makes exactly one service call, the list
    request of the reload, which asks for that sort order only. *)
Theorem clearFilters_spec (w : World) :
  let w' := TaskListComponent.clearFilters w in
  filterStatus (comp w') = "" /\
  filterPriority (comp w') = "" /\
  searchQuery (comp w') = "" /\
  dueDateFrom (comp w') = "" /\
  dueDateTo (comp w') = "" /\
  sortBy (comp w') = "priority" /\
  sortDirection (comp w') = "asc" /\
  calls w' = calls w ++ [GetAllTasks (Some Spec.default_filters)] /\
  inflight w' = inflight w ++ [GetAllTasks (Some Spec.default_filters)] /\
  TaskService.getAllTasks_params (Some Spec.default_filters)
  = {[ "sortBy" := "priority"; "sortDirection" := "asc" ]}.
Proof.
  repeat split.
Qed.

(** ** Deleting a task *)

Section Completion.

Import TASK_CONSTANTS TaskListComponent.

Variable w : World.

Lemma respond_inflight (n : nat) (call : ServiceCall) (r : Response) :
  inflight w !! n = Some call ->
  respond n r w
  = finalize
      (match call, r with
       | GetAllTasks _, Success data => loadTasks_next data
       | GetAllTasks _, Failure err => loadTasks_error err
       | CreateTask _, Success _ | UpdateTask _ _, Success _ => saveTask_next
       | CreateTask _, Failure err | UpdateTask _ _, Failure err =>
           saveTask_error err
       | DeleteTask _, Success _ => deleteTask_next
       | DeleteTask _, Failure err => deleteTask_error err
       end (set_inflight (delete n (inflight w)) w)).
Proof.
  intros Hn. unfold respond. rewrite Hn. by destruct call, r.
Qed.

Lemma respond_nothing (n : nat) (r : Response) :
  inflight w !! n = None -> respond n r w = w.
Proof. intros Hn. unfold respond. by rewrite Hn. Qed.

(** Whatever completes, the loading flag is cleared last. *)
Lemma respond_clears_loading (n : nat) (call : ServiceCall) (r : Response) :
  inflight w !! n = Some call -> loading (comp (respond n r w)) = false.
Proof. intros Hn. by rewrite (respond_inflight n call r Hn). Qed.

(** The completed subscription leaves the requests in flight; the only
    request that a completion can start is a reload. *)
Lemma respond_inflight_after (n : nat) (call : ServiceCall) (r : Response) :
  inflight w !! n = Some call ->
  exists reload,
    inflight (respond n r w) = delete n (inflight w) ++ reload /\
    calls (respond n r w) = calls w ++ reload /\
    (reload = [] \/
     reload = [GetAllTasks (Some (buildFilterParams (comp w)))]).
Proof.
  intros Hn. rewrite (respond_inflight n call r Hn).
  destruct call, r; simpl;
    first [ by exists []; rewrite !app_nil_r; auto
          | by eexists [_]; auto ].
Qed.

End Completion.

(** C6. [deleteTask] returns at once, with no call and no change of any
    kind, when the id is undefined (or the empty string). With an id, a
    declined confirmation leaves the component and the service untouched.
    With an id and an accepted confirmation exactly one [deleteTask] call
    with that id is made. When that request succeeds the list is reloaded
    by one list request built from the current filters; when it fails the
    error message becomes "Failed to delete task. Please try again." and
    no further call is made. *)
Theorem deleteTask_spec (w : World) (answer : bool) :
  TaskListComponent.deleteTask None answer w = w /\
  TaskListComponent.deleteTask (Some "") answer w = w /\
  (forall id, id <> "" ->
     (let w' := TaskListComponent.deleteTask (Some id) false w in
      calls w' = calls w /\ inflight w' = inflight w /\ comp w' = comp w) /\
     (let w' := TaskListComponent.deleteTask (Some id) true w in
      calls w' = calls w ++ [DeleteTask id] /\
      inflight w' = inflight w ++ [DeleteTask id])) /\
  (forall n id data, inflight w !! n = Some (DeleteTask id) ->
     let reload :=
       GetAllTasks (Some (TaskListComponent.buildFilterParams (comp w))) in
     let w' := TaskListComponent.respond n (Success data) w in
     calls w' = calls w ++ [reload] /\
     inflight w' = delete n (inflight w) ++ [reload]) /\
  (forall n id err, inflight w !! n = Some (DeleteTask id) ->
     let w' := TaskListComponent.respond n (Failure err) w in
     error (comp w') = TASK_CONSTANTS.ERROR_MESSAGES.DELETE_FAILED /\
     calls w' = calls w /\
     inflight w' = delete n (inflight w)).
Proof.
  split; [reflexivity|]. split; [reflexivity|]. split; [|split].
  - intros id Hid. apply truthy_nonempty in Hid.
    unfold TaskListComponent.deleteTask. rewrite Hid. simpl.
    repeat split.
  - intros n id data Hn. simpl.
    rewrite (respond_inflight w n _ (Success data) Hn). by split.
  - intros n id err Hn. simpl.
    rewrite (respond_inflight w n _ (Failure err) Hn). by repeat split.
Qed.

(** A delete without id, a declined one, an accepted one, and the two
    ways the accepted one can end. *)
Lemma deleteTask_witness :
  calls (TaskListComponent.deleteTask None true loading_world)
  = calls loading_world /\
  calls (TaskListComponent.deleteTask (Some "1") false loading_world)
  = calls loading_world /\
  calls deleting_world
  = [GetAllTasks (Some Spec.default_filters); DeleteTask "1"] /\
  calls (TaskListComponent.respond 1 (Success []) deleting_world)
  = [GetAllTasks (Some Spec.default_filters); DeleteTask "1";
     GetAllTasks (Some Spec.default_filters)] /\
  error (comp (TaskListComponent.respond 1 (Failure "500") deleting_world))
  = "Failed to delete task. Please try again.".
Proof.
  refine (conj _ (conj _ (conj _ (conj _ _)))).
  - destruct (deleteTask_spec loading_world true) as [Hnone _].
    by rewrite Hnone.
  - destruct (deleteTask_spec loading_world true) as (_ & _ & Hid & _).
    destruct (Hid "1") as [[Hcalls _] _]; [discriminate|]. exact Hcalls.
  - destruct (deleteTask_spec loading_world true) as (_ & _ & Hid & _).
    destruct (Hid "1") as [_ [Hcalls _]]; [discriminate|]. exact Hcalls.
  - destruct (deleteTask_spec deleting_world true) as (_ & _ & _ & Hok & _).
    destruct (Hok 1%nat "1" []) as [Hcalls _]; [reflexivity|]. exact Hcalls.
  - destruct (deleteTask_spec deleting_world true) as (_ & _ & _ & _ & Hko).
    destruct (Hko 1%nat "1" "500") as [Herror _]; [reflexivity|].
    exact Herror.
Defined.

(** ** The loading flag *)

Section Loading.

Import TASK_CONSTANTS TaskListComponent.

Lemma step_keeps_loading (e : Event) (w : World) :
  Spec.completes e = false -> loading (comp w) = true ->
  loading (comp (step e w)) = true.
Proof.
  intros He Hw. destruct e; try discriminate He; simpl;
    try reflexivity; try assumption.
  - destruct (validateTask_outcome w) as [[_ ->] | [_ [msg ->]]];
      assumption.
  - destruct (fst (validateTask w)) eqn:Hv.
    + by rewrite (saveTask_valid w Hv).
    + rewrite (saveTask_invalid w Hv).
      destruct (validateTask_outcome w) as [[_ ->] | [_ [msg ->]]];
        assumption.
  - unfold deleteTask. destruct id as [id|]; [|assumption].
    destruct (JS.truthy id); [|assumption].
    destruct answer; simpl; [reflexivity | assumption].
  - destruct i; assumption.
Qed.

End Loading.

(** C7, as amended. [loadTasks], [saveTask] on a valid draft and
    [deleteTask] with an id and an accepted confirmation each set the
    loading flag and leave their request in flight; no event other than
    the end of a request clears the flag; when a request in flight
    completes, with a result or with an error, its subscription is over
    and the flag is false, whatever else is still in flight. When a list
    request fails, the error message becomes "Failed to load tasks. Please
    try again." and [tasks] and [filteredTasks] are left as they were. *)
Theorem loading_spec (w : World) :
  (let w' := TaskListComponent.loadTasks w in
   let request :=
     GetAllTasks (Some (TaskListComponent.buildFilterParams (comp w))) in
   loading (comp w') = true /\ inflight w' = inflight w ++ [request]) /\
  (fst (TaskListComponent.validateTask w) = true ->
   let w' := TaskListComponent.saveTask w in
   loading (comp w') = true /\
   inflight w' = inflight w ++ [TaskListComponent.save_operation (comp w)]) /\
  (forall id, id <> "" ->
     let w' := TaskListComponent.deleteTask (Some id) true w in
     loading (comp w') = true /\ inflight w' = inflight w ++ [DeleteTask id]) /\
  (forall e, Spec.completes e = false -> loading (comp w) = true ->
             loading (comp (step e w)) = true) /\
  (forall n call r, inflight w !! n = Some call ->
     let w' := TaskListComponent.respond n r w in
     loading (comp w') = false /\
     exists reload, inflight w' = delete n (inflight w) ++ reload) /\
  (forall n filters err, inflight w !! n = Some (GetAllTasks filters) ->
     let w' := TaskListComponent.respond n (Failure err) w in
     loading (comp w') = false /\
     error (comp w') = "Failed to load tasks. Please try again." /\
     tasks (comp w') = tasks (comp w) /\
     filteredTasks (comp w') = filteredTasks (comp w)).
Proof.
  split; [by split|]. split; [|split; [|split; [|split]]].
  - intros Hv. simpl. by rewrite (saveTask_valid w Hv).
  - intros id Hid. apply truthy_nonempty in Hid.
    unfold TaskListComponent.deleteTask. rewrite Hid. by split.
  - intros e. apply step_keeps_loading.
  - intros n call r Hn. simpl. split.
    + by apply respond_clears_loading with call.
    + destruct (respond_inflight_after w n call r Hn) as (reload & H & _).
      by exists reload.
  - intros n filters err Hn. simpl.
    rewrite (respond_inflight w n _ (Failure err) Hn). by repeat split.
Qed.

(** C7 as stated fails: after a successful save the reload started by the
    handler is in flight and the flag, cleared when the save ended, is
    false. *)
Lemma reload_in_flight_not_loading :
  ~ Spec.loading_while_in_flight reloading_after_save.
Proof.
  intros H.
  assert (Hflag : loading (comp reloading_after_save) = true)
    by (apply H; vm_compute; discriminate).
  vm_compute in Hflag. discriminate Hflag.
Qed.

(** The first load of a new component: loading while in flight, still
    loading after the user opens a modal, cleared by either outcome. *)
Lemma loading_witness :
  loading (comp (step OpenCreateModal loading_world)) = true /\
  loading (comp (TaskListComponent.saveTask (with_draft valid_draft))) = true /\
  loading (comp deleting_world) = true /\
  loading (comp (TaskListComponent.respond 0 (Success mock_tasks)
                   loading_world)) = false /\
  (let w' := TaskListComponent.respond 0 (Failure "500") loading_world in
   loading (comp w') = false /\
   error (comp w') = "Failed to load tasks. Please try again." /\
   tasks (comp w') = []).
Proof.
  refine (conj _ (conj _ (conj _ (conj _ _)))).
  - destruct (loading_spec loading_world) as (_ & _ & _ & Hkeep & _).
    apply Hkeep; reflexivity.
  - destruct (loading_spec (with_draft valid_draft)) as (_ & Hsave & _).
    destruct Hsave as [Hloading _]; [vm_compute; reflexivity|].
    exact Hloading.
  - destruct (loading_spec loading_world) as (_ & _ & Hdelete & _).
    destruct (Hdelete "1") as [Hloading _]; [discriminate|]. exact Hloading.
  - destruct (loading_spec loading_world) as (_ & _ & _ & _ & Hdone & _).
    destruct (Hdone 0%nat (GetAllTasks (Some Spec.default_filters))
                (Success mock_tasks)) as [Hloading _]; [reflexivity|].
    exact Hloading.
  - destruct (loading_spec loading_world) as (_ & _ & _ & _ & _ & Hfail).
    destruct (Hfail 0%nat (Some Spec.default_filters) "500")
      as (Hloading & Herror & Htasks & _); [reflexivity|].
    exact (conj Hloading (conj Herror Htasks)).
Defined.

(** ** Relative times *)

Section TimeAgo.

Import TaskListComponent.

Variable Date_parse : string -> JS.number.
Variable toLocaleDateString : JS.number -> string.
Variables (now past : Z) (date : string).
Hypothesis date_valid : Date_parse date = JS.Int past.

Let age : Z := (now - past) / 1000.

Lemma diffInSeconds_age : diffInSeconds Date_parse now date = JS.Int age.
Proof. unfold diffInSeconds. by rewrite date_valid. Qed.

(** [getTimeAgo] as a function of the age in seconds. *)
Lemma getTimeAgo_age :
  getTimeAgo Date_parse toLocaleDateString now date
  = if age <? 60 then "Just now"
    else if age <? 3600 then pretty (age / 60) +:+ "m ago"
    else if age <? 86400 then pretty (age / 3600) +:+ "h ago"
    else if age <? 604800 then pretty (age / 86400) +:+ "d ago"
    else toLocaleDateString (JS.Int past).
Proof.
  unfold getTimeAgo. rewrite diffInSeconds_age, date_valid. reflexivity.
Qed.

End TimeAgo.

(** C8. For a date that parses to a time value, with [t] the whole number
    of seconds between it and now, [getTimeAgo] returns "Just now" when
    t < 60, the decimal of floor(t/60) followed by "m ago" when
    60 <= t < 3600, the decimal of floor(t/3600) followed by "h ago" when
    3600 <= t < 86400, the decimal of floor(t/86400) followed by "d ago"
    when 86400 <= t < 604800, and the date in the locale's form when
    t >= 604800. A date 5 minutes before now gives "5m ago", which
    contains "m ago", and the present instant gives "Just now". *)
Theorem getTimeAgo_spec (Date_parse : string -> JS.number)
    (toLocaleDateString : JS.number -> string) (now past : Z)
    (date : string) :
  Date_parse date = JS.Int past ->
  let t := (now - past) / 1000 in
  let timeAgo :=
    TaskListComponent.getTimeAgo Date_parse toLocaleDateString now date in
  (t < 60 -> timeAgo = "Just now") /\
  (60 <= t < 3600 -> timeAgo = pretty (t / 60) +:+ "m ago") /\
  (3600 <= t < 86400 -> timeAgo = pretty (t / 3600) +:+ "h ago") /\
  (86400 <= t < 604800 -> timeAgo = pretty (t / 86400) +:+ "d ago") /\
  (604800 <= t -> timeAgo = toLocaleDateString (JS.Int past)) /\
  (past = now - 5 * 60 * 1000 -> timeAgo = "5m ago") /\
  (past = now -> timeAgo = "Just now").
Proof.
  intros Hdate t timeAgo. subst timeAgo.
  rewrite (getTimeAgo_age _ toLocaleDateString now past date Hdate).
  fold t.
  assert (Hfive : past = now - 5 * 60 * 1000 -> t = 300).
  { intros ->. unfold t. replace (now - (now - 5 * 60 * 1000)) with 300000
      by lia. reflexivity. }
  assert (Hnow : past = now -> t = 0).
  { intros ->. unfold t. by rewrite Z.sub_diag. }
  repeat split; intros H;
    try (rewrite (Hfive H)); try (rewrite (Hnow H)); try reflexivity;
    repeat match goal with
      | |- context [?a <? ?b] =>
          first [ rewrite (proj2 (Z.ltb_lt a b)) by lia
                | rewrite (proj2 (Z.ltb_ge a b)) by lia ]
      end; reflexivity.
Qed.

(** Ages of 59 seconds, 5 minutes, 2 hours, 3 days and 8 days. *)
Lemma getTimeAgo_witness :
  TaskListComponent.getTimeAgo epoch_parse epoch_print 59999 "x"
  = "Just now" /\
  TaskListComponent.getTimeAgo epoch_parse epoch_print 300000 "x"
  = "5m ago" /\
  TaskListComponent.getTimeAgo epoch_parse epoch_print 7200000 "x"
  = "2h ago" /\
  TaskListComponent.getTimeAgo epoch_parse epoch_print 259200000 "x"
  = "3d ago" /\
  TaskListComponent.getTimeAgo epoch_parse epoch_print 691200000 "x"
  = "1/1/1970".
Proof.
  refine (conj _ (conj _ (conj _ (conj _ _)))).
  - destruct (getTimeAgo_spec epoch_parse epoch_print 59999 0 "x" eq_refl)
      as (H & _).
    apply H. reflexivity.
  - destruct (getTimeAgo_spec epoch_parse epoch_print 300000 0 "x" eq_refl)
      as (_ & H & _).
    apply H. split; [discriminate | reflexivity].
  - destruct (getTimeAgo_spec epoch_parse epoch_print 7200000 0 "x" eq_refl)
      as (_ & _ & H & _).
    apply H. split; [discriminate | reflexivity].
  - destruct (getTimeAgo_spec epoch_parse epoch_print 259200000 0 "x" eq_refl)
      as (_ & _ & _ & H & _).
    apply H. split; [discriminate | reflexivity].
  - destruct (getTimeAgo_spec epoch_parse epoch_print 691200000 0 "x" eq_refl)
      as (_ & _ & _ & _ & H & _).
    apply H. discriminate.
Defined.

(** ** The two task collections *)

Section Collections.

Import TASK_CONSTANTS TaskListComponent.

(** Ending subscriptions early touches the loading flag only. *)
Lemma finalize_all_tasks (l : list ServiceCall) (w : World) :
  let w' := foldr (fun _ w => finalize w) w l in
  tasks (comp w') = tasks (comp w) /\
  filteredTasks (comp w') = filteredTasks (comp w).
Proof.
  induction l as [|call l IH]; simpl; [by split|].
  destruct IH as [IHt IHf]. by split.
Qed.

(** One event either delivers a list, which goes to both collections, or
    leaves both alone. *)
Lemma step_collections (e : Event) (w : World) :
  match Spec.loaded e w with
  | Some data =>
      tasks (comp (step e w)) = data /\
      filteredTasks (comp (step e w)) = data
  | None =>
      tasks (comp (step e w)) = tasks (comp w) /\
      filteredTasks (comp (step e w)) = filteredTasks (comp w)
  end.
Proof.
  destruct e; simpl; try (split; reflexivity).
  - unfold ngOnDestroy. destruct (destroyed w); [by split|].
    apply finalize_all_tasks.
  - destruct (validateTask_outcome w) as [[_ ->] | [_ [msg ->]]];
      by split.
  - destruct (fst (validateTask w)) eqn:Hv.
    + by rewrite (saveTask_valid w Hv).
    + rewrite (saveTask_invalid w Hv).
      destruct (validateTask_outcome w) as [[_ ->] | [_ [msg ->]]];
        by split.
  - unfold deleteTask. destruct id as [id|]; [|by split].
    destruct (JS.truthy id); [|by split]. by destruct answer.
  - by destruct i.
  - destruct (inflight w !! n) as [call|] eqn:Hn.
    + rewrite (respond_inflight w n call r Hn).
      by destruct r, call.
    + rewrite (respond_nothing w n r Hn). by destruct r.
Qed.

Lemma run_collections (es : list Event) :
  forall (w : World) (acc : list Task),
    tasks (comp w) = acc -> filteredTasks (comp w) = acc ->
    tasks (comp (run es w)) = Spec.last_loaded es w acc /\
    filteredTasks (comp (run es w)) = Spec.last_loaded es w acc.
Proof.
  induction es as [|e es IH]; intros w acc Ht Hf; simpl; [by split|].
  apply IH; pose proof (step_collections e w) as Hstep;
    destruct (Spec.loaded e w) as [data|]; simpl;
    destruct Hstep as [Hst Hsf]; congruence.
Qed.

End Collections.

(** C10. After any sequence of events from a new component, [tasks] and
    [filteredTasks] are the same list, namely the list delivered by the
    last list request that succeeded (the empty list if none did yet), so
    [getTaskCountByStatus] counts the tasks of that status in the whole
    list loaded last. One more event changes the two collections only if
    it is the success of a list request, and then both become the list it
    delivers. *)
Theorem collections_identical (es : list Event) (status : string) :
  let w := run es init in
  tasks (comp w) = filteredTasks (comp w) /\
  filteredTasks (comp w) = Spec.last_loaded es init [] /\
  TaskListComponent.getTaskCountByStatus (comp w) status
  = Spec.count_status status (tasks (comp w)) /\
  TaskListComponent.getTaskCountByStatus (comp w) status
  = Spec.count_status status (Spec.last_loaded es init []) /\
  (forall e,
     match Spec.loaded e w with
     | Some data =>
         tasks (comp (step e w)) = data /\
         filteredTasks (comp (step e w)) = data
     | None =>
         tasks (comp (step e w)) = tasks (comp w) /\
         filteredTasks (comp (step e w)) = filteredTasks (comp w)
     end).
Proof.
  intros w.
  destruct (run_collections es init [] eq_refl eq_refl) as [Ht Hf].
  fold w in Ht, Hf.
  unfold TaskListComponent.getTaskCountByStatus, Spec.count_status.
  rewrite Ht, Hf. repeat split.
  intros e. pose proof (step_collections e w) as Hstep.
  by rewrite Ht, Hf in Hstep.
Qed.

(** The scenario of the tests: three tasks with distinct statuses are
    loaded, and each status counts one task. The count does not follow the
    draft, the modals or a failed reload. *)
Example count_by_status_after_load :
  let w := run [NgOnInit; Respond 0 (Success mock_tasks);
                OpenEditModal saved_task; ApplyFilters;
                Respond 0 (Failure "500")] init in
  TaskListComponent.getTaskCountByStatus (comp w) "TODO" = 1%nat /\
  TaskListComponent.getTaskCountByStatus (comp w) "IN_PROGRESS" = 1%nat /\
  TaskListComponent.getTaskCountByStatus (comp w) "DONE" = 1%nat /\
  TaskListComponent.getTaskCountByStatus (comp w) "ARCHIVED" = 0%nat /\
  tasks (comp w) = mock_tasks /\
  loading (comp w) = false.
Proof. vm_compute. repeat split; reflexivity. Qed.

(** * Further properties *)

(** ** White space *)

Section WhiteSpace.

Lemma chars_rev_app (s1 s2 : string) :
  list_ascii_of_string (String.rev_app s1 s2)
  = rev (list_ascii_of_string s1) ++ list_ascii_of_string s2.
Proof.
  revert s2. induction s1 as [|c s1 IH]; intros s2; simpl; [done|].
  rewrite IH. simpl. by rewrite <- app_assoc.
Qed.

Lemma chars_rev (s : string) :
  list_ascii_of_string (String.rev s) = rev (list_ascii_of_string s).
Proof. unfold String.rev. rewrite chars_rev_app. simpl. apply app_nil_r. Qed.

Lemma chars_empty (s : string) : list_ascii_of_string s = [] <-> s = "".
Proof. destruct s; simpl; split; congruence. Qed.

Lemma rev_empty (s : string) : String.rev s = "" <-> s = "".
Proof.
  rewrite <- !chars_empty, chars_rev.
  split; intros H; [|by rewrite H].
  apply (f_equal (@rev ascii)) in H. by rewrite rev_involutive in H.
Qed.

Lemma has_non_white_space_rev (s : string) :
  Props.has_non_white_space (String.rev s) <-> Props.has_non_white_space s.
Proof.
  unfold Props.has_non_white_space. rewrite chars_rev.
  split; intros (c & Hc & Hws); exists c; (split; [|done]).
  - by apply in_rev.
  - by apply in_rev in Hc.
Qed.

Lemma trimStart_nonempty (s : string) :
  JS.trimStart s <> "" <-> Props.has_non_white_space s.
Proof.
  unfold Props.has_non_white_space.
  induction s as [|c s IH]; simpl.
  - split; [done | by intros (c & [] & _)].
  - destruct (JS.is_white_space c) eqn:Hc.
    + rewrite IH. split.
      * intros (c' & Hin & Hws). exists c'. auto.
      * intros (c' & [<- | Hin] & Hws); [congruence | by exists c'].
    + split; [|done]. intros _. exists c. auto.
Qed.

Lemma has_non_white_space_trimStart (s : string) :
  Props.has_non_white_space (JS.trimStart s) <-> Props.has_non_white_space s.
Proof.
  unfold Props.has_non_white_space.
  induction s as [|c s IH]; simpl; [done|].
  destruct (JS.is_white_space c) eqn:Hc; [|done].
  rewrite IH. split.
  - intros (c' & Hin & Hws). exists c'. auto.
  - intros (c' & [<- | Hin] & Hws); [congruence | by exists c'].
Qed.

(** [trim] leaves something exactly when the string has a character that
    is not white space. *)
Lemma trim_nonempty (s : string) :
  JS.trim s <> "" <-> Props.has_non_white_space s.
Proof.
  unfold JS.trim, JS.trimEnd.
  rewrite <- has_non_white_space_trimStart.
  rewrite <- (has_non_white_space_rev (JS.trimStart s)).
  rewrite <- trimStart_nonempty.
  split; intros H Hempty; apply H; by apply rev_empty.
Qed.

End WhiteSpace.

(** ** From the filter fields to the query string *)

Section FilterFields.

Import TaskListComponent.

Lemma sent_field (name field : string) (params : gmap string string) :
  Spec.sent_iff_truthy name
    (if JS.truthy field then Some field else None) params ->
  params !! name = Props.param_of_field field.
Proof.
  unfold Props.param_of_field. intros [Hsent Habsent].
  destruct field as [|c s]; simpl in *.
  - apply Habsent. by left.
  - by apply Hsent.
Qed.

Lemma loadTasks_priority_absent (c : Component) :
  filterPriority c = "" ->
  TaskService.getAllTasks_params (Some (buildFilterParams c)) !! "priority"
  = None.
Proof.
  intros Hp.
  destruct (getAllTasks_priority (buildFilterParams c)) as [_ Habsent].
  apply Habsent. unfold buildFilterParams. cbn [fp_priority].
  by rewrite Hp.
Qed.

(** A priority filter that is not empty is sent, and as the string form
    of the number read in it when the model stands for that number. *)
Lemma loadTasks_priority_sent (c : Component) :
  filterPriority c <> "" ->
  let params := TaskService.getAllTasks_params (Some (buildFilterParams c)) in
  is_Some (params !! "priority") /\
  (JS.safe (JS.parseInt10 (filterPriority c)) ->
   params !! "priority"
   = Some (JS.toString (JS.parseInt10 (filterPriority c)))).
Proof.
  intros Hp. apply truthy_nonempty in Hp.
  destruct (getAllTasks_priority (buildFilterParams c)) as [Hsent _].
  apply Hsent. unfold buildFilterParams. cbn [fp_priority].
  by rewrite Hp.
Qed.

Lemma pretty_Z_truthy (z : Z) : JS.truthy (pretty z) = true.
Proof.
  destruct (pretty z) eqn:Hz; [|done].
  pose proof (parseInt10_pretty z) as Hparse. by rewrite Hz in Hparse.
Qed.

End FilterFields.

(** X1. The list request of [loadTasks] carries, for each of the six text
    filters of the component, a query parameter with the text of the
    field when the field is not empty and no parameter when it is. The
    priority filter is not sent when empty and is sent otherwise, as the
    string form of what [parseInt] reads in it when that is [NaN] or a
    whole number up to 2^53 - 1 in magnitude. *)
Theorem loadTasks_sends_filter_fields (w : World) :
  let c := comp w in
  let filters := TaskListComponent.buildFilterParams c in
  let params := TaskService.getAllTasks_params (Some filters) in
  calls (TaskListComponent.loadTasks w)
  = calls w ++ [GetAllTasks (Some filters)] /\
  params !! "status" = Props.param_of_field (filterStatus c) /\
  params !! "dueDateFrom" = Props.param_of_field (dueDateFrom c) /\
  params !! "dueDateTo" = Props.param_of_field (dueDateTo c) /\
  params !! "search" = Props.param_of_field (searchQuery c) /\
  params !! "sortBy" = Props.param_of_field (sortBy c) /\
  params !! "sortDirection" = Props.param_of_field (sortDirection c) /\
  (filterPriority c = "" -> params !! "priority" = None) /\
  (filterPriority c <> "" ->
   is_Some (params !! "priority") /\
   (JS.safe (JS.parseInt10 (filterPriority c)) ->
    params !! "priority"
    = Some (JS.toString (JS.parseInt10 (filterPriority c))))).
Proof.
  intros c filters params.
  destruct (getAllTasks_string_fields filters)
    as (Hstatus & Hfrom & Hto & Hsearch & Hsort & Hdir).
  split; [reflexivity|].
  do 6 (split; [by apply sent_field|]).
  split; [apply loadTasks_priority_absent | apply loadTasks_priority_sent].
Qed.

(** X2. The decimal numeral of a whole number up to 2^53 - 1 in
    magnitude, written as [toString] writes it (a minus sign if negative,
    no plus sign, no leading zero), reaches the query string unchanged
    when typed into the priority filter: [parseInt] followed by
    [toString] gives the numeral back. *)
Theorem priority_filter_round_trip (w : World) (z : Z) :
  - JS.MAX_SAFE_INTEGER <= z <= JS.MAX_SAFE_INTEGER ->
  filterPriority (comp w) = pretty z ->
  TaskService.getAllTasks_params
    (Some (TaskListComponent.buildFilterParams (comp w))) !! "priority"
  = Some (pretty z).
Proof.
  intros Hsafe Hz.
  destruct (loadTasks_priority_sent (comp w)) as [_ Hsent].
  { rewrite Hz. apply truthy_nonempty, pretty_Z_truthy. }
  rewrite Hz, parseInt10_pretty in Hsent. by apply Hsent.
Qed.

(** X3. A priority filter whose first character is neither white space,
    nor a sign, nor a digit is not dropped: the request carries
    priority=NaN. *)
Theorem priority_filter_not_a_number (w : World) (c : ascii) (r : string) :
  filterPriority (comp w) = String c r ->
  JS.is_white_space c = false -> c <> "-"%char -> c <> "+"%char ->
  JS.digit_of c = None ->
  TaskService.getAllTasks_params
    (Some (TaskListComponent.buildFilterParams (comp w))) !! "priority"
  = Some "NaN".
Proof.
  intros Hp Hws Hminus Hplus Hdigit.
  assert (Hnan : JS.parseInt10 (String c r) = JS.NaN).
  { rewrite parseInt10_unsigned by done. simpl. by rewrite Hdigit. }
  destruct (loadTasks_priority_sent (comp w)) as [_ Hsent].
  { by rewrite Hp. }
  rewrite Hp, Hnan in Hsent. by apply Hsent.
Qed.

(** ** White space in the draft *)

(** X4. The title (and the description) passes its first check exactly
    when it has a character other than white space; a draft whose title
    is made of white space only is rejected with "Title is required", and
    one whose title is in order but whose description is made of white
    space only with "Description is required". *)
Theorem validateTask_blank_fields (w : World) :
  let t := currentTask (comp w) in
  (Spec.title_present t <-> Props.has_non_white_space (task_title t)) /\
  (Spec.description_present t
   <-> Props.has_non_white_space (task_description t)) /\
  (~ Props.has_non_white_space (task_title t) ->
   TaskListComponent.validateTask w
   = (false, alert "Title is required" w)) /\
  (Props.has_non_white_space (task_title t) -> Spec.title_fits t ->
   ~ Props.has_non_white_space (task_description t) ->
   TaskListComponent.validateTask w
   = (false, alert "Description is required" w)).
Proof.
  intros t.
  split; [apply trim_nonempty|]. split; [apply trim_nonempty|]. split.
  - intros Hblank. apply validateTask_title_required.
    by rewrite <- trim_nonempty in Hblank.
  - intros Htitle Hfits Hblank. apply validateTask_description_required.
    + by apply trim_nonempty.
    + done.
    + by rewrite <- trim_nonempty in Hblank.
Qed.

(** ** The fallbacks of the lookup helpers *)

Section Fallbacks.

Import TASK_CONSTANTS TaskListComponent.

Lemma known_priority_cases (z : Z) :
  1 <= z <= 5 -> z = 1 \/ z = 2 \/ z = 3 \/ z = 4 \/ z = 5.
Proof. lia. Qed.

Lemma priority_key_missing (z : Z) (table : list (string * string)) :
  ~ 1 <= z <= 5 ->
  table.*1 = ["1"; "2"; "3"; "4"; "5"] ->
  (list_to_map table : gmap string string) !! pretty z = None.
Proof.
  intros Hz Hkeys. apply not_elem_of_list_to_map_1. rewrite Hkeys.
  intros Hin.
  repeat (apply elem_of_cons in Hin as [Hin | Hin]);
    try (by apply elem_of_nil in Hin);
    [ change "1" with (pretty 1) in Hin | change "2" with (pretty 2) in Hin
    | change "3" with (pretty 3) in Hin | change "4" with (pretty 4) in Hin
    | change "5" with (pretty 5) in Hin ];
    apply (inj pretty) in Hin; lia.
Qed.

Lemma status_key_missing (status : string) (table : list (string * string)) :
  ~ Props.known_status status ->
  table.*1 = [TaskStatus.TODO; TaskStatus.IN_PROGRESS; TaskStatus.DONE] ->
  (list_to_map table : gmap string string) !! status = None.
Proof.
  intros Hs Hkeys. apply not_elem_of_list_to_map_1. rewrite Hkeys.
  intros Hin. apply Hs. unfold Props.known_status.
  repeat (apply elem_of_cons in Hin as [Hin | Hin]); auto.
  by apply elem_of_nil in Hin.
Qed.

Lemma priority_helpers_known (p : JS.number) :
  Props.known_priority p ->
  getPriorityLabel p <> JS.Str "Unknown" /\
  getPriorityIcon p <> JS.Str "bi bi-circle" /\
  getPriorityClass p <> JS.Str "bg-secondary".
Proof.
  intros (z & -> & Hz).
  destruct (known_priority_cases z Hz) as [-> | [-> | [-> | [-> | ->]]]];
    vm_compute; repeat split; discriminate.
Qed.

Lemma priority_helpers_unknown (p : JS.number) :
  ~ Props.known_priority p ->
  getPriorityLabel p = JS.Str "Unknown" /\
  getPriorityIcon p = JS.Str "bi bi-circle" /\
  getPriorityClass p = JS.Str "bg-secondary".
Proof.
  intros Hp.
  assert (Hmissing : forall table : list (string * string),
            table.*1 = ["1"; "2"; "3"; "4"; "5"] ->
            (list_to_map table : gmap string string) !! JS.toString p = None).
  { intros table Hkeys. destruct p as [|z].
    - apply not_elem_of_list_to_map_1. rewrite Hkeys.
      apply (bool_decide_unpack _). vm_compute. reflexivity.
    - apply priority_key_missing; [|done].
      intros Hz. apply Hp. by exists z. }
  pose proof (toString_not_inherited p) as Hown.
  unfold getPriorityLabel, getPriorityIcon, getPriorityClass.
  unfold PRIORITY.LABELS, PRIORITY.ICONS, PRIORITY.CLASSES.
  repeat split; by apply or_else_missing; [apply Hmissing|].
Qed.

Lemma status_helpers_known (status : string) :
  Props.known_status status ->
  getStatusLabel status <> JS.Str status /\
  getStatusIcon status <> JS.Str "bi bi-question-circle" /\
  getStatusClass status <> JS.Str "bg-secondary".
Proof.
  intros [-> | [-> | ->]]; vm_compute; repeat split; discriminate.
Qed.

Lemma status_helpers_unknown (status : string) :
  ~ Props.known_status status -> status ∉ JS.Object_prototype ->
  getStatusLabel status = JS.Str status /\
  getStatusIcon status = JS.Str "bi bi-question-circle" /\
  getStatusClass status = JS.Str "bg-secondary".
Proof.
  intros Hs Hown.
  unfold getStatusLabel, getStatusIcon, getStatusClass.
  unfold STATUS.LABELS, STATUS.ICONS, STATUS.CLASSES.
  repeat split; by apply or_else_missing; [apply status_key_missing|].
Qed.

Lemma status_helpers_inherited (status : string) :
  status ∈ JS.Object_prototype ->
  getStatusLabel status = JS.Member status /\
  getStatusIcon status = JS.Member status /\
  getStatusClass status = JS.Member status.
Proof.
  intros Hin.
  assert (Hs : ~ Props.known_status status).
  { intros [-> | [-> | ->]]; revert Hin;
      apply (bool_decide_unpack _); vm_compute; reflexivity. }
  unfold getStatusLabel, getStatusIcon, getStatusClass.
  unfold STATUS.LABELS, STATUS.ICONS, STATUS.CLASSES.
  repeat split; by apply or_else_inherited; [apply status_key_missing|].
Qed.

End Fallbacks.

(** X5. The priority helpers fall back exactly on the numbers that are not
    whole numbers from 1 to 5 ([NaN] included). The status helpers fall
    back exactly on the strings that are neither "TODO", "IN_PROGRESS" or
    "DONE" nor the name of a member of Object.prototype: on the three
    codes the label, icon and class come from the tables, and on a name
    such as "constructor" all three helpers return the inherited member
    of that name. *)
Theorem helpers_fall_back_iff_unknown (p : JS.number) (status : string) :
  (TaskListComponent.getPriorityLabel p = JS.Str "Unknown"
   <-> ~ Props.known_priority p) /\
  (TaskListComponent.getPriorityIcon p = JS.Str "bi bi-circle"
   <-> ~ Props.known_priority p) /\
  (TaskListComponent.getPriorityClass p = JS.Str "bg-secondary"
   <-> ~ Props.known_priority p) /\
  (TaskListComponent.getStatusLabel status = JS.Str status
   <-> ~ Props.known_status status /\ status ∉ JS.Object_prototype) /\
  (TaskListComponent.getStatusIcon status = JS.Str "bi bi-question-circle"
   <-> ~ Props.known_status status /\ status ∉ JS.Object_prototype) /\
  (TaskListComponent.getStatusClass status = JS.Str "bg-secondary"
   <-> ~ Props.known_status status /\ status ∉ JS.Object_prototype) /\
  (status ∈ JS.Object_prototype ->
   TaskListComponent.getStatusLabel status = JS.Member status /\
   TaskListComponent.getStatusIcon status = JS.Member status /\
   TaskListComponent.getStatusClass status = JS.Member status).
Proof.
  pose proof (priority_helpers_known p) as Hp.
  pose proof (priority_helpers_unknown p) as Hp'.
  pose proof (status_helpers_known status) as Hs.
  pose proof (status_helpers_unknown status) as Hs'.
  pose proof (status_helpers_inherited status) as Hi.
  split_and!; try exact Hi;
    (split; [intros H | intros Hu]);
    first [ by intros Hk; destruct (Hp Hk) as (? & ? & ?)
          | by destruct (Hp' Hu) as (? & ? & ?)
          | by destruct Hu as [Hu Hown]; destruct (Hs' Hu Hown) as (? & ? & ?)
          | idtac ].
  all: split;
    [ by intros Hk; destruct (Hs Hk) as (? & ? & ?)
    | intros Hin; destruct (Hi Hin) as (Hl & Hc & Hc');
      congruence ].
Qed.

(** ** Counting by status *)

Section Counting.

Import TaskListComponent.

Lemma count_status_cons (status : string) (t : Task) (l : list Task) :
  Spec.count_status status (t :: l)
  = ((if decide (task_status t = status) then 1 else 0)
     + Spec.count_status status l)%nat.
Proof.
  unfold Spec.count_status. rewrite filter_cons.
  by destruct (decide (task_status t = status)).
Qed.

Lemma count_status_le (status : string) (l : list Task) :
  (Spec.count_status status l <= length l)%nat.
Proof.
  induction l as [|t l IH]; [done|].
  rewrite count_status_cons. simpl. case_decide; lia.
Qed.

Lemma three_counts (l : list Task) :
  let total := (Spec.count_status TaskStatus.TODO l
                + Spec.count_status TaskStatus.IN_PROGRESS l
                + Spec.count_status TaskStatus.DONE l)%nat in
  (total <= length l)%nat /\
  (total = length l <->
   Forall (fun t => Props.known_status (task_status t)) l).
Proof.
  induction l as [|t l [IHle IHeq]]; simpl.
  - split; [done|]. split; [constructor | done].
  - rewrite !count_status_cons.
    assert (Hone :
      ((if decide (task_status t = TaskStatus.TODO) then 1 else 0)
       + (if decide (task_status t = TaskStatus.IN_PROGRESS) then 1 else 0)
       + (if decide (task_status t = TaskStatus.DONE) then 1 else 0)
       = if decide (Props.known_status (task_status t)) then 1 else 0)%nat).
    { generalize (task_status t). intros s.
      destruct (decide (s = TaskStatus.TODO)) as [-> | Htodo];
        [reflexivity|].
      destruct (decide (s = TaskStatus.IN_PROGRESS)) as [-> | Hprog];
        [reflexivity|].
      destruct (decide (s = TaskStatus.DONE)) as [-> | Hdone];
        [reflexivity|].
      destruct (decide (Props.known_status s)) as [[? | [? | ?]] | _];
        done. }
    assert (Hknown :
      ((if decide (Props.known_status (task_status t)) then 1 else 0) <= 1
       /\ ((if decide (Props.known_status (task_status t)) then 1 else 0) = 1
           <-> Props.known_status (task_status t)))%nat).
    { destruct (decide (Props.known_status (task_status t)));
        (split; [lia|]); split; intros; first [done | lia]. }
    destruct Hknown as [Hle Hiff].
    rewrite Forall_cons, <- IHeq, <- Hiff. lia.
Qed.

End Counting.

(** X6. [getTaskCountByStatus] never exceeds the number of tasks held, the
    counts of "TODO", "IN_PROGRESS" and "DONE" together never exceed it
    either, and the three add up to it exactly when every task held has
    one of these three statuses. *)
Theorem status_counts_partition (c : Component) :
  let count := TaskListComponent.getTaskCountByStatus c in
  let total := (count "TODO" + count "IN_PROGRESS" + count "DONE")%nat in
  (forall status, (count status <= length (filteredTasks c))%nat) /\
  (total <= length (filteredTasks c))%nat /\
  (total = length (filteredTasks c) <->
   Forall (fun t => Props.known_status (task_status t)) (filteredTasks c)).
Proof.
  intros count total. split; [intros status; apply count_status_le|].
  apply (three_counts (filteredTasks c)).
Qed.

(** ** The shape of a relative time *)

Section TimeAgoShape.

Import TaskListComponent.

Variable Date_parse : string -> JS.number.
Variable toLocaleDateString : JS.number -> string.

Lemma getTimeAgo_invalid (now : Z) (date : string) :
  Date_parse date = JS.NaN ->
  getTimeAgo Date_parse toLocaleDateString now date
  = toLocaleDateString JS.NaN.
Proof.
  intros Hdate. unfold getTimeAgo, diffInSeconds. by rewrite Hdate.
Qed.

Lemma quotient_bounds (t d hi : Z) :
  0 < d -> d <= t < d * hi -> 1 <= t / d <= hi - 1.
Proof.
  intros Hd [Hlo Hhi]. split.
  - apply Z.div_le_lower_bound; lia.
  - assert (t / d < hi) by (apply Z.div_lt_upper_bound; lia). lia.
Qed.

End TimeAgoShape.

(** X7. Whatever the date string and the clock, [getTimeAgo] returns
    "Just now", or a count from 1 to 59 followed by "m ago", or a count
    from 1 to 23 followed by "h ago", or a count from 1 to 6 followed by
    "d ago", or the date as the locale prints it. It never returns
    "Unknown": a string that is not a date is handed to the locale
    printer as an invalid date. A date in the future, or less than a
    minute old, gives "Just now". *)
Theorem getTimeAgo_shape (Date_parse : string -> JS.number)
    (toLocaleDateString : JS.number -> string) (now : Z) (date : string) :
  let timeAgo :=
    TaskListComponent.getTimeAgo Date_parse toLocaleDateString now date in
  (timeAgo = "Just now" \/
   (exists n, 1 <= n <= 59 /\ timeAgo = pretty n +:+ "m ago") \/
   (exists n, 1 <= n <= 23 /\ timeAgo = pretty n +:+ "h ago") \/
   (exists n, 1 <= n <= 6 /\ timeAgo = pretty n +:+ "d ago") \/
   timeAgo = toLocaleDateString (Date_parse date)) /\
  (Date_parse date = JS.NaN -> timeAgo = toLocaleDateString JS.NaN) /\
  (forall past, Date_parse date = JS.Int past -> now < past + 60000 ->
                timeAgo = "Just now").
Proof.
  intros timeAgo. subst timeAgo. split; [|split].
  - destruct (Date_parse date) as [|past] eqn:Hdate.
    + do 4 right. by apply getTimeAgo_invalid.
    + rewrite (getTimeAgo_age _ toLocaleDateString now past date Hdate).
      set (t := (now - past) / 1000).
      destruct (Z.ltb_spec t 60); [by left|].
      destruct (Z.ltb_spec t 3600).
      { right; left. exists (t / 60). split; [|done].
        apply (quotient_bounds t 60 60); lia. }
      destruct (Z.ltb_spec t 86400).
      { right; right; left. exists (t / 3600). split; [|done].
        apply (quotient_bounds t 3600 24); lia. }
      destruct (Z.ltb_spec t 604800).
      { right; right; right; left. exists (t / 86400). split; [|done].
        apply (quotient_bounds t 86400 7); lia. }
      by do 4 right.
  - apply getTimeAgo_invalid.
  - intros past Hdate Hrecent.
    rewrite (getTimeAgo_age _ toLocaleDateString now past date Hdate).
    assert (Ht : (now - past) / 1000 < 60)
      by (apply Z.div_lt_upper_bound; lia).
    by rewrite (proj2 (Z.ltb_lt _ _) Ht).
Qed.

(** ** What every event does to the calls and to the flags *)

Section Steps.

Import TASK_CONSTANTS TaskListComponent.

Lemma field_ok_built (v : string) :
  Props.field_ok (if JS.truthy v then Some v else None).
Proof. unfold Props.field_ok. by destruct v. Qed.

Lemma loadTasks_call_ok (c : Component) :
  Props.call_ok (GetAllTasks (Some (buildFilterParams c))).
Proof.
  exists (buildFilterParams c). split; [done|].
  repeat split; apply field_ok_built.
Qed.

Lemma save_operation_ok (w : World) :
  fst (validateTask w) = true -> Props.call_ok (save_operation (comp w)).
Proof.
  intros Hv. apply validateTask_true_iff in Hv.
  unfold save_operation.
  destruct (isEditMode (comp w)); [|done].
  destruct (task_id (currentTask (comp w))) as [id|] eqn:Hid; [|done].
  destruct (JS.truthy id) eqn:Htruthy; [|done].
  simpl. by rewrite <- truthy_nonempty.
Qed.

(** Ending all subscriptions clears the flag if there was one. *)
Lemma finalize_all_comp (l : list ServiceCall) (w : World) :
  comp (foldr (fun _ w => finalize w) w l)
  = match l with
    | [] => comp w
    | _ :: _ => set_loading false (comp w)
    end.
Proof.
  induction l as [|c l IH]; [done|]. simpl. rewrite IH. by destruct l.
Qed.

Lemma finalize_all_logs (l : list ServiceCall) (w : World) :
  let w' := foldr (fun _ w => finalize w) w l in
  calls w' = calls w /\ alerts w' = alerts w /\
  confirms w' = confirms w /\ console w' = console w.
Proof. induction l as [|c l IH]; [done | exact IH]. Qed.

(** The calls an event adds: none or one, and a call that can be
    vouched for. *)
Lemma step_calls (e : Event) (w : World) :
  exists new,
    calls (step e w) = calls w ++ new /\
    (length new <= 1)%nat /\
    Forall Props.call_ok new /\
    (Props.may_call e = false -> new = []).
Proof.
  assert (Hload : forall w', calls w' = calls w ->
    exists new, calls (loadTasks w') = calls w ++ new /\
                (length new <= 1)%nat /\ Forall Props.call_ok new /\
                (true = false -> new = [])).
  { intros w' Hw'. eexists [_]. split; [simpl; by rewrite Hw'|].
    split; [simpl; lia|].
    split; [|done]. repeat constructor. apply loadTasks_call_ok. }
  assert (Hnone : forall w' b, calls w' = calls w ->
    exists new, calls w' = calls w ++ new /\
                (length new <= 1)%nat /\ Forall Props.call_ok new /\
                (b = false -> new = [])).
  { intros w' b Hw'. exists []. rewrite app_nil_r.
    split; [done|]. split; [simpl; lia|]. split; [constructor | done]. }
  destruct e; cbn [step Props.may_call];
    try (by apply Hload); try (by apply Hnone).
  - apply Hnone. unfold ngOnDestroy. destruct (destroyed w); [done|]. simpl.
    by destruct (finalize_all_logs (inflight w) w) as (-> & _).
  - apply Hnone. by destruct (validateTask_frame w) as (_ & -> & _).
  - destruct (fst (validateTask w)) eqn:Hv.
    + rewrite (saveTask_valid w Hv). eexists [_].
      split; [reflexivity|]. split; [simpl; lia|]. split; [|done].
      repeat constructor. by apply save_operation_ok.
    + apply Hnone. rewrite (saveTask_invalid w Hv).
      by destruct (validateTask_frame w) as (_ & -> & _).
  - unfold deleteTask. destruct id as [id|]; [|by apply Hnone].
    destruct (JS.truthy id) eqn:Hid; [|by apply Hnone].
    destruct answer; [|by apply Hnone].
    eexists [_]. split; [reflexivity|]. split; [simpl; lia|].
    split; [|done].
    repeat constructor. simpl. by rewrite <- truthy_nonempty.
  - apply Hnone. by destruct i.
  - destruct (inflight w !! n) as [call|] eqn:Hn.
    + destruct (respond_inflight_after w n call r Hn)
        as (reload & _ & Hcalls & [-> | ->]).
      * exists []. split; [done|]. split; [simpl; lia|].
        split; [constructor | done].
      * eexists [_]. split; [done|]. split; [simpl; lia|]. split; [|done].
        repeat constructor. apply loadTasks_call_ok.
    + apply Hnone. by rewrite (respond_nothing w n r Hn).
Qed.

Lemma run_cons (e : Event) (es : list Event) (w : World) :
  run (e :: es) w = run es (step e w).
Proof. reflexivity. Qed.

Lemma run_calls_ok (es : list Event) :
  forall w, Forall Props.call_ok (calls w) ->
            Forall Props.call_ok (calls (run es w)).
Proof.
  induction es as [|e es IH]; intros w Hw; [done|].
  rewrite run_cons. apply IH.
  destruct (step_calls e w) as (new & -> & _ & Hnew & _).
  by apply Forall_app.
Qed.

(** With nothing in flight after an event, the flag is down, provided
    this was so before. *)
Lemma step_idle (e : Event) (w : World) :
  (inflight w = [] -> loading (comp w) = false) ->
  inflight (step e w) = [] -> loading (comp (step e w)) = false.
Proof.
  intros Hw.
  assert (Hsub : forall call w', inflight (subscribe call w') = [] -> False).
  { intros call w' H. simpl in H. by destruct (inflight w'). }
  destruct e; simpl; try done;
    try (intros H; by apply Hsub in H).
  - unfold ngOnDestroy. destruct (destroyed w); [done|].
    intros _. simpl. rewrite finalize_all_comp.
    destruct (inflight w); [by apply Hw | done].
  - by destruct (validateTask_outcome w) as [[_ ->] | [_ [msg ->]]].
  - destruct (fst (validateTask w)) eqn:Hv.
    + rewrite (saveTask_valid w Hv). intros H. by apply Hsub in H.
    + rewrite (saveTask_invalid w Hv).
      by destruct (validateTask_outcome w) as [[_ ->] | [_ [msg ->]]].
  - unfold deleteTask. destruct id as [id|]; [|done].
    destruct (JS.truthy id); [|done].
    destruct answer; simpl; [|done]. intros H. by apply Hsub in H.
  - by destruct i.
  - destruct (inflight w !! n) as [call|] eqn:Hn.
    + intros _. by apply respond_clears_loading with call.
    + by rewrite (respond_nothing w n r Hn).
Qed.

Lemma run_idle (es : list Event) :
  forall w, (inflight w = [] -> loading (comp w) = false) ->
            inflight (run es w) = [] -> loading (comp (run es w)) = false.
Proof.
  induction es as [|e es IH]; intros w Hw; [done|].
  rewrite run_cons. apply IH. by apply step_idle.
Qed.

Ltac in_list :=
  repeat first [apply list_elem_of_here | apply list_elem_of_further].

(** The messages an event can leave. *)
Lemma step_messages (e : Event) (w : World) :
  error (comp w) ∈ Props.error_messages ->
  Forall (fun msg => msg ∈ Props.validation_messages) (alerts w) ->
  error (comp (step e w)) ∈ Props.error_messages /\
  Forall (fun msg => msg ∈ Props.validation_messages) (alerts (step e w)).
Proof.
  intros He Ha.
  assert (Hempty : "" ∈ Props.error_messages) by (by left).
  assert (Hvalidate :
    error (comp (snd (validateTask w))) ∈ Props.error_messages /\
    Forall (fun msg => msg ∈ Props.validation_messages)
      (alerts (snd (validateTask w)))).
  { unfold validateTask.
    repeat match goal with
           | |- context [if ?b then _ else _] => destruct b
           end; simpl; (split; [done|]); try done;
      apply Forall_app; (split; [done|]); repeat constructor;
      unfold Props.validation_messages; in_list. }
  destruct e; simpl; try done.
  - unfold ngOnDestroy. destruct (destroyed w); [done|].
    simpl. rewrite finalize_all_comp.
    destruct (finalize_all_logs (inflight w) w) as (_ & -> & _).
    by destruct (inflight w).
  - destruct (fst (validateTask w)) eqn:Hv.
    + by rewrite (saveTask_valid w Hv).
    + by rewrite (saveTask_invalid w Hv).
  - unfold deleteTask. destruct id as [id|]; [|done].
    destruct (JS.truthy id); [|done]. by destruct answer.
  - by destruct i.
  - destruct (inflight w !! n) as [call|] eqn:Hn.
    + rewrite (respond_inflight w n call r Hn).
      destruct call, r; simpl; (split; [|done]); try done;
        unfold Props.error_messages;
        try destruct (isEditMode (comp w)); in_list.
    + by rewrite (respond_nothing w n r Hn).
Qed.

Lemma run_messages (es : list Event) :
  forall w,
    error (comp w) ∈ Props.error_messages ->
    Forall (fun msg => msg ∈ Props.validation_messages) (alerts w) ->
    error (comp (run es w)) ∈ Props.error_messages /\
    Forall (fun msg => msg ∈ Props.validation_messages) (alerts (run es w)).
Proof.
  induction es as [|e es IH]; intros w He Ha; [done|].
  rewrite run_cons. destruct (step_messages e w He Ha). by apply IH.
Qed.

End Steps.

(** X8. Every call the controller ever makes can be vouched for: a task
    sent to [createTask] or [updateTask] has passed the five checks of
    [validateTask]; the id given to [updateTask] is the non-empty id of
    the task sent with it; the id given to [deleteTask] is not empty;
    a list request always comes with a filter object, none of whose text
    fields is an empty string. *)
Theorem calls_well_formed (es : list Event) :
  Forall Props.call_ok (calls (run es init)).
Proof. apply run_calls_ok. constructor. Qed.

(** X9. One event makes at most one service call. Opening and closing the
    modals, viewing details, validating, typing into the form and
    destroying the component make none, and, destruction aside, leave the
    requests in flight as they are. *)
Theorem step_makes_at_most_one_call (e : Event) (w : World) :
  (exists new, calls (step e w) = calls w ++ new /\ (length new <= 1)%nat) /\
  (Props.may_call e = false ->
   calls (step e w) = calls w /\
   (e <> NgOnDestroy -> inflight (step e w) = inflight w)).
Proof.
  split.
  - destruct (step_calls e w) as (new & Hcalls & Hlen & _). by exists new.
  - intros Hquiet. split.
    + destruct (step_calls e w) as (new & Hcalls & _ & _ & Hnone).
      rewrite Hcalls, (Hnone Hquiet). apply app_nil_r.
    + intros Hne. destruct e; try discriminate Hquiet; try done.
      * by destruct (validateTask_frame w) as (_ & _ & Hin & _).
      * by destruct i.
Qed.

(** X10. The spinner is never left on: after any sequence of events from a
    new component, if no request is in flight the loading flag is
    false. *)
Theorem idle_means_not_loading (es : list Event) :
  inflight (run es init) = [] -> loading (comp (run es init)) = false.
Proof. by apply run_idle. Qed.

(** X11. The user only ever sees fixed texts: after any sequence of events
    the error message is empty or one of the four failure messages,
    whatever error text the responses carried, and every alert shown is
    one of the five validation messages. *)
Theorem messages_are_fixed (es : list Event) :
  error (comp (run es init)) ∈ Props.error_messages /\
  Forall (fun msg => msg ∈ Props.validation_messages) (alerts (run es init)).
Proof. apply run_messages; [by left | constructor]. Qed.

(** ** Teardown *)

(** X12. The first [ngOnDestroy] ends every subscription: nothing is in
    flight afterwards, so a response that arrives late changes nothing and
    no handler runs. It makes no call and touches no field but the loading
    flag, which it clears if anything was in flight. It also completes
    [destroy$]: any later [ngOnDestroy] changes nothing at all, so a
    request made after the first teardown is not ended by a second one. *)
Theorem ngOnDestroy_spec (w : World) :
  let w' := TaskListComponent.ngOnDestroy w in
  (destroyed w = false ->
   inflight w' = [] /\
   destroyed w' = true /\
   (forall n r, TaskListComponent.respond n r w' = w') /\
   calls w' = calls w /\
   (inflight w = [] -> comp w' = comp w) /\
   (inflight w <> [] -> comp w' = set_loading false (comp w))) /\
  (destroyed w = true -> w' = w).
Proof.
  intros w'. subst w'. unfold TaskListComponent.ngOnDestroy.
  split; intros ->; [|done].
  split; [done|]. split; [done|]. split; [by intros n r|]. split.
  { simpl. by destruct (finalize_all_logs (inflight w) w) as (-> & _). }
  simpl. rewrite finalize_all_comp. by destruct (inflight w).
Qed.

(** ** How a save ends *)

Section SaveOutcome.

Import TASK_CONSTANTS TaskListComponent.

Variable w : World.
Variables (n : nat) (call : ServiceCall).
Hypothesis in_flight : inflight w !! n = Some call.
Hypothesis save : Props.is_save call = true.

Lemma save_success (data : list Task) :
  respond n (Success data) w
  = finalize (saveTask_next (set_inflight (delete n (inflight w)) w)).
Proof.
  rewrite (respond_inflight w n call (Success data) in_flight).
  by destruct call.
Qed.

Lemma save_failure (err : string) :
  respond n (Failure err) w
  = finalize (saveTask_error err (set_inflight (delete n (inflight w)) w)).
Proof.
  rewrite (respond_inflight w n call (Failure err) in_flight).
  by destruct call.
Qed.

End SaveOutcome.

(** X13. When a save request succeeds, the modal is closed, the draft is
    reset to the empty draft, the error message is cleared, the list is
    reloaded by one list request built from the filters of that moment,
    and the loading flag is false; the edit-mode flag and the tasks held
    are left as they were. *)
Theorem save_success_spec (w : World) (n : nat) (call : ServiceCall)
    (data : list Task) :
  inflight w !! n = Some call -> Props.is_save call = true ->
  let w' := TaskListComponent.respond n (Success data) w in
  let reload :=
    GetAllTasks (Some (TaskListComponent.buildFilterParams (comp w))) in
  showModal (comp w') = false /\
  currentTask (comp w') = TaskListComponent.getEmptyTask /\
  error (comp w') = "" /\
  loading (comp w') = false /\
  calls w' = calls w ++ [reload] /\
  inflight w' = delete n (inflight w) ++ [reload] /\
  isEditMode (comp w') = isEditMode (comp w) /\
  tasks (comp w') = tasks (comp w).
Proof.
  intros Hn Hsave. simpl. rewrite (save_success w n call Hn Hsave data).
  by repeat split.
Qed.

(** X14. When a save request fails, the message is chosen by the edit-mode
    flag at that moment, not by the call that was made: "Failed to update
    task..." in edit mode even if the request was a [createTask]. The
    modal, the draft and the flag are left as they were and no call is
    made, so that saving again sends the same call. *)
Theorem save_failure_spec (w : World) (n : nat) (call : ServiceCall)
    (err : string) :
  inflight w !! n = Some call -> Props.is_save call = true ->
  let w' := TaskListComponent.respond n (Failure err) w in
  error (comp w')
  = (if isEditMode (comp w)
     then "Failed to update task. Please try again."
     else "Failed to create task. Please try again.") /\
  showModal (comp w') = showModal (comp w) /\
  currentTask (comp w') = currentTask (comp w) /\
  isEditMode (comp w') = isEditMode (comp w) /\
  loading (comp w') = false /\
  calls w' = calls w /\
  inflight w' = delete n (inflight w) /\
  (fst (TaskListComponent.validateTask w) = true ->
   calls (TaskListComponent.saveTask w')
   = calls w ++ [TaskListComponent.save_operation (comp w)]).
Proof.
  intros Hn Hsave. simpl. rewrite (save_failure w n call Hn Hsave err).
  repeat split.
  intros Hv. rewrite saveTask_valid; [done|].
  rewrite <- Hv. by apply validateTask_reads_draft_only.
Qed.

(** ** Answers that arrive out of order *)

(** X15. With two list requests in flight, the tasks shown in the end are
    those of the answer that arrives last, whichever request was made
    first: if the second request is answered before the first, the older
    answer overwrites the newer. *)
Theorem last_answer_wins (w : World) (f1 f2 : option TaskFilterParams)
    (rest : list ServiceCall) (d1 d2 : list Task) :
  inflight w = GetAllTasks f1 :: GetAllTasks f2 :: rest ->
  let in_order :=
    TaskListComponent.respond 0 (Success d2)
      (TaskListComponent.respond 0 (Success d1) w) in
  let out_of_order :=
    TaskListComponent.respond 0 (Success d1)
      (TaskListComponent.respond 1 (Success d2) w) in
  tasks (comp in_order) = d2 /\ filteredTasks (comp in_order) = d2 /\
  tasks (comp out_of_order) = d1 /\ filteredTasks (comp out_of_order) = d1 /\
  inflight in_order = rest /\ inflight out_of_order = rest.
Proof.
  intros Hin. unfold TaskListComponent.respond. rewrite Hin. simpl.
  by repeat split.
Qed.

(** ** The empty draft *)

(** X16. The draft that [openCreateModal] and [closeModal] leave behind
    cannot be saved: [saveTask] right after either of them shows "Title is
    required" and makes no call. *)
Theorem empty_draft_is_not_saved (w : World) :
  let opened := TaskListComponent.openCreateModal w in
  let closed := TaskListComponent.closeModal w in
  TaskListComponent.saveTask opened = alert "Title is required" opened /\
  TaskListComponent.saveTask closed = alert "Title is required" closed /\
  calls (TaskListComponent.saveTask opened) = calls w /\
  calls (TaskListComponent.saveTask closed) = calls w.
Proof. by repeat split. Qed.

(** ** The requests on the wire *)

Section Wire.

Variable env : string.

Lemma append_fixed (s x : string) : s +:+ x = s -> x = "".
Proof.
  induction s as [|c s IH]; simpl; [done|].
  intros Heq. injection Heq as Heq. by apply IH.
Qed.

Lemma item_url_inj (id1 id2 : string) :
  Http.url (Http.getTaskById env id1) = Http.url (Http.getTaskById env id2) ->
  id1 = id2.
Proof.
  unfold Http.getTaskById. cbn [Http.url]. intros Hurl.
  apply (inj (String.app _)) in Hurl. by injection Hurl.
Qed.

Lemma item_url_not_collection (id : string) :
  Http.url (Http.getTaskById env id) <> Http.apiUrl env.
Proof.
  unfold Http.getTaskById. cbn [Http.url]. intros Hurl.
  apply append_fixed in Hurl. discriminate Hurl.
Qed.

End Wire.

(** X17. Reading, updating and deleting the task [id] use one and the same
    URL, [apiUrl/id]; different ids give different URLs, and none of them
    is the URL of the collection. Of the requests the controller sends,
    every GET and POST goes to the collection, the POST with a task that
    passed validation, and every PUT and DELETE goes to [apiUrl/id] with
    a non-empty id, the PUT carrying the validated task of that id. *)
Theorem requests_on_the_wire (env : string) :
  (forall id task,
     Http.url (Http.updateTask env id task)
     = Http.url (Http.getTaskById env id) /\
     Http.url (Http.deleteTask env id) = Http.url (Http.getTaskById env id)) /\
  (forall id1 id2,
     Http.url (Http.getTaskById env id1)
     = Http.url (Http.getTaskById env id2) ->
     id1 = id2) /\
  (forall id, Http.url (Http.getTaskById env id) <> Http.apiUrl env) /\
  (forall es call, call ∈ calls (run es init) ->
     let request := Http.send env call in
     match Http.method request with
     | Http.GET =>
         Http.url request = Http.apiUrl env /\ Http.body request = None
     | Http.POST =>
         Http.url request = Http.apiUrl env /\
         exists task, Http.body request = Some task /\ Spec.well_formed task
     | Http.PUT =>
         exists id task,
           id <> "" /\ Http.url request = Http.apiUrl env +:+ "/" +:+ id /\
           Http.body request = Some task /\ task_id task = Some id /\
           Spec.well_formed task
     | Http.DELETE =>
         exists id,
           id <> "" /\ Http.url request = Http.apiUrl env +:+ "/" +:+ id /\
           Http.body request = None
     end).
Proof.
  split; [by intros id task|]. split; [apply item_url_inj|].
  split; [apply item_url_not_collection|].
  intros es call Hcall.
  pose proof (run_calls_ok es init (Forall_nil_2 _)) as Hall.
  rewrite Forall_forall in Hall. specialize (Hall call Hcall).
  destruct call as [filters | task | id task | id]; simpl in *.
  - done.
  - split; [done|]. by exists task.
  - destruct Hall as (Hwf & Hid & Hne). by exists id, task.
  - by exists id.
Qed.

(** ** The further properties at work *)

(** "42" typed into the priority filter is sent as priority=42. *)
Lemma priority_filter_round_trip_witness :
  TaskService.getAllTasks_params
    (Some (TaskListComponent.buildFilterParams
             (comp (with_priority_filter "42")))) !! "priority"
  = Some "42".
Proof.
  apply (priority_filter_round_trip (with_priority_filter "42") 42).
  - unfold JS.MAX_SAFE_INTEGER. lia.
  - reflexivity.
Defined.

(** "007" typed into the priority filter is sent as priority=7, and an
    empty filter is not sent. *)
Lemma loadTasks_sends_filter_fields_witness :
  TaskService.getAllTasks_params
    (Some (TaskListComponent.buildFilterParams
             (comp (with_priority_filter "007")))) !! "priority"
  = Some "7" /\
  TaskService.getAllTasks_params
    (Some (TaskListComponent.buildFilterParams (comp init))) !! "priority"
  = None.
Proof.
  split.
  - destruct (loadTasks_sends_filter_fields (with_priority_filter "007"))
      as (_ & _ & _ & _ & _ & _ & _ & _ & Hsent).
    destruct Hsent as [_ Hseven]; [discriminate|].
    apply Hseven. vm_compute. split; discriminate.
  - destruct (loadTasks_sends_filter_fields init)
      as (_ & _ & _ & _ & _ & _ & _ & Habsent & _).
    apply Habsent. reflexivity.
Defined.

(** "high" typed into the priority filter is sent as priority=NaN. *)
Lemma priority_filter_not_a_number_witness :
  TaskService.getAllTasks_params
    (Some (TaskListComponent.buildFilterParams
             (comp (with_priority_filter "high")))) !! "priority"
  = Some "NaN".
Proof.
  apply (priority_filter_not_a_number (with_priority_filter "high")
           "h" "igh"); first [reflexivity | discriminate].
Defined.

(** A title of two blanks, a tab and a line feed counts as missing. *)
Lemma validateTask_blank_fields_witness :
  TaskListComponent.validateTask (with_draft blank_title_draft)
  = (false, alert "Title is required" (with_draft blank_title_draft)).
Proof.
  destruct (validateTask_blank_fields (with_draft blank_title_draft))
    as (_ & _ & Hblank & _).
  apply Hblank. intros (c & Hin & Hws). simpl in Hin.
  destruct Hin as [<- | [<- | [<- | [<- | []]]]]; discriminate Hws.
Defined.

(** A date five seconds ahead of the clock, and a string that is no date
    at all. *)
Lemma getTimeAgo_shape_witness :
  TaskListComponent.getTimeAgo epoch_parse epoch_print (-5000) "x"
  = "Just now" /\
  TaskListComponent.getTimeAgo (fun _ => JS.NaN) epoch_print 0 "soon"
  = "1/1/1970".
Proof.
  split.
  - destruct (getTimeAgo_shape epoch_parse epoch_print (-5000) "x")
      as (_ & _ & Hrecent).
    apply (Hrecent 0); [reflexivity | lia].
  - destruct (getTimeAgo_shape (fun _ => JS.NaN) epoch_print 0 "soon")
      as (_ & Hinvalid & _).
    apply Hinvalid. reflexivity.
Defined.

(** Opening the create modal while the first load is in flight. *)
Lemma step_makes_at_most_one_call_witness :
  calls (step OpenCreateModal loading_world) = calls loading_world /\
  inflight (step OpenCreateModal loading_world) = inflight loading_world.
Proof.
  destruct (step_makes_at_most_one_call OpenCreateModal loading_world)
    as [_ Hquiet].
  destruct Hquiet as [Hcalls Hinflight]; [reflexivity|].
  split; [exact Hcalls | apply Hinflight; discriminate].
Defined.

(** After the first load has been answered the spinner is off. *)
Lemma idle_means_not_loading_witness :
  loading (comp (run [NgOnInit; Respond 0 (Success mock_tasks)] init)) = false.
Proof.
  apply (idle_means_not_loading [NgOnInit; Respond 0 (Success mock_tasks)]).
  reflexivity.
Defined.

(** The component is destroyed while its first load is in flight; the
    answer arrives afterwards. A load started after the teardown is not
    ended by a second teardown: it stays in flight with the flag up. *)
Lemma ngOnDestroy_witness :
  let torn_down := TaskListComponent.ngOnDestroy loading_world in
  (TaskListComponent.respond 0 (Success mock_tasks) torn_down = torn_down /\
   comp torn_down = set_loading false (comp loading_world)) /\
  (TaskListComponent.ngOnDestroy loading_after_destroy = loading_after_destroy /\
   inflight loading_after_destroy = [GetAllTasks (Some Spec.default_filters)] /\
   loading (comp loading_after_destroy) = true).
Proof.
  split.
  - destruct (ngOnDestroy_spec loading_world) as [Hfirst _].
    destruct Hfirst as (_ & _ & Hlate & _ & _ & Hcomp); [reflexivity|].
    split; [apply Hlate | apply Hcomp; discriminate].
  - destruct (ngOnDestroy_spec loading_after_destroy) as [_ Hagain].
    split; [apply Hagain; reflexivity | split; reflexivity].
Defined.

(** What the helpers return on a priority of the tables, on one outside
    them, on an unknown status and on the name of an inherited member. *)
Lemma helpers_fall_back_iff_unknown_witness :
  TaskListComponent.getPriorityLabel (JS.Int 6) = JS.Str "Unknown" /\
  TaskListComponent.getStatusIcon "CANCELLED"
  = JS.Str "bi bi-question-circle" /\
  TaskListComponent.getStatusLabel "__proto__" = JS.Member "__proto__".
Proof.
  destruct (helpers_fall_back_iff_unknown (JS.Int 6) "CANCELLED")
    as (Hlabel & _ & _ & _ & Hicon & _).
  destruct (helpers_fall_back_iff_unknown JS.NaN "__proto__")
    as (_ & _ & _ & _ & _ & _ & Hmember).
  refine (conj _ (conj _ _)).
  - apply Hlabel. intros (z & Hz & Hrange). injection Hz as <-. lia.
  - apply Hicon. split.
    + intros [H | [H | H]]; discriminate H.
    + apply (bool_decide_unpack _). vm_compute. reflexivity.
  - destruct Hmember as (Hl & _ & _); [|exact Hl].
    apply (bool_decide_unpack _). vm_compute. reflexivity.
Defined.

(** The save of the valid draft, opened for editing without id, succeeds. *)
Lemma save_success_witness :
  let w' := TaskListComponent.respond 0 (Success []) saving_unsaved_edit in
  showModal (comp w') = false /\
  currentTask (comp w') = TaskListComponent.getEmptyTask /\
  calls w' = [CreateTask valid_draft; GetAllTasks (Some Spec.default_filters)].
Proof.
  destruct (save_success_spec saving_unsaved_edit 0 (CreateTask valid_draft)
              [] eq_refl eq_refl)
    as (Hmodal & Hdraft & _ & _ & Hcalls & _).
  exact (conj Hmodal (conj Hdraft Hcalls)).
Defined.

(** The same save fails: the call was a [createTask], the message speaks
    of an update, and saving again sends the same [createTask]. *)
Lemma save_failure_witness :
  let w' := TaskListComponent.respond 0 (Failure "500") saving_unsaved_edit in
  error (comp w') = "Failed to update task. Please try again." /\
  showModal (comp w') = true /\
  calls (TaskListComponent.saveTask w')
  = [CreateTask valid_draft; CreateTask valid_draft].
Proof.
  destruct (save_failure_spec saving_unsaved_edit 0 (CreateTask valid_draft)
              "500" eq_refl eq_refl)
    as (Herror & Hmodal & _ & _ & _ & _ & _ & Hretry).
  refine (conj Herror (conj Hmodal _)).
  apply Hretry. vm_compute. reflexivity.
Defined.

(** Two loads in flight; the second is answered first. *)
Lemma last_answer_wins_witness :
  tasks (comp (TaskListComponent.respond 0 (Success [])
                 (TaskListComponent.respond 1 (Success mock_tasks)
                    two_loads))) = [].
Proof.
  destruct (last_answer_wins two_loads (Some Spec.default_filters)
              (Some Spec.default_filters) [] [] mock_tasks eq_refl)
    as (_ & _ & Hstale & _).
  exact Hstale.
Defined.

(** The update of task "1" goes out as a PUT to [apiUrl/1]. *)
Lemma requests_on_the_wire_witness :
  exists id task,
    id <> "" /\
    Http.url (Http.send "http://localhost:8080/api/v1"
                (UpdateTask "1" saved_task))
    = "http://localhost:8080/api/v1/tasks" +:+ "/" +:+ id /\
    Http.body (Http.send "http://localhost:8080/api/v1"
                 (UpdateTask "1" saved_task)) = Some task /\
    task_id task = Some id /\ Spec.well_formed task.
Proof.
  destruct (requests_on_the_wire "http://localhost:8080/api/v1")
    as (_ & _ & _ & Hsent).
  apply (Hsent [OpenEditModal saved_task; SaveTask]
           (UpdateTask "1" saved_task)).
  vm_compute. apply list_elem_of_here.
Defined.
